(** * IronTrack: the data provider, its remote-store client and the export

    A shallow embedding of the client-side data layer of the IronTrack
    workout tracker:

    - [Supabase]: the [database] object of [lib/supabase.js], one function
      per remote query;
    - [DataContext]: the operations of [DataProvider]
      ([contexts/DataContext.js]): [loadData], [syncData],
      [loadTodayWorkout], [createExercise], [deleteExercise], [addSet],
      [deleteSet], [exportData], [getTodayStats];
    - [AddSetScreen]: the form schema and the submit handler of
      [screens/AddSetScreen.js], the caller of [addSet].

    Asynchronous functions are run to completion one at a time: an
    operation is a function from the world (React state and AsyncStorage)
    to a trace of events, a final world and an outcome, the outcome being
    the settlement of the promise the operation returns. *)

From Stdlib Require Import ZArith List String Ascii DecimalString Lia Sorted OrderedTypeEx.
From stdpp Require Import base list strings gmap.

Open Scope string_scope.
Open Scope list_scope.
Open Scope Z_scope.

(** ** JavaScript numbers and the built-ins the code calls *)

Module JS.

(** A number is NaN, an infinity, or a finite decimal [m * 10^-e].  Every
    finite binary64 value is such a decimal, and the numbers [parseInt] and
    [parseFloat] return are binary64 values: the decimal they read is
    rounded to the nearest one.  Zero has no sign: the program never
    divides by it, and prints, compares and tests both zeros alike. *)
Inductive number : Type :=
| NaN
| Infinity (negative : bool)
| Fin (m : Z) (e : nat).

#[global] Instance number_eq_dec : EqDecision number.
Proof. solve_decision. Defined.

Definition of_Z (z : Z) : number := Fin z 0.
Definition of_nat (n : nat) : number := Fin (Z.of_nat n) 0.

Definition signed (negative : bool) (z : Z) : Z := if negative then - z else z.

(** *** Rounding to binary64 *)

(** The integer part of the binary logarithm of [num / den], both
    positive. *)
Definition floor_log2 (num den : Z) : Z :=
  if den <=? num then Z.log2 (num / den)
  else - Z.log2_up ((den + num - 1) / num).

(** [q + r / d] rounded to an integer, ties to even; [0 <= r < d]. *)
Definition round_half_even (q r d : Z) : Z :=
  match 2 * r ?= d with
  | Lt => q
  | Gt => q + 1
  | Eq => if Z.even q then q else q + 1
  end.

(** The binary64 value nearest to [num / den], both positive, ties to
    even, as [(m, x)] for [m * 2^x]: [m] has at most 53 bits ([m = 2^53]
    stands for the first value of the next binade) and [x >= -1074], the
    exponent of the subnormal values.  Overflow is left to [of_binary]. *)
Definition round64 (num den : Z) : Z * Z :=
  let x := Z.max (floor_log2 num den - 52) (- 1074) in
  let '(n, d) := if 0 <=? x then (num, den * 2 ^ x) else (num * 2 ^ (- x), den) in
  (round_half_even (n / d) (n mod d) d, x).

(** [m * 10^-e] without the trailing zeros of [m] that [e] allows. *)
Fixpoint normalise (m : Z) (e : nat) : number :=
  match e with
  | O => Fin m 0
  | S e' => if m mod 10 =? 0 then normalise (m / 10) e' else Fin m e
  end.

(** The number [m * 2^x] of [round64]: an infinity from [2^1024] on. *)
Definition of_binary (negative : bool) (b : Z * Z) : number :=
  let '(m, x) := b in
  if 0 <=? x then
    if 2 ^ 1024 <=? m * 2 ^ x then Infinity negative
    else Fin (signed negative (m * 2 ^ x)) 0
  else normalise (signed negative (m * 5 ^ (- x))) (Z.to_nat (- x)).

(** The Number value of the decimal [m * 10^-scale], [m >= 0]. *)
Definition of_decimal (negative : bool) (m scale : Z) : number :=
  if m =? 0 then Fin 0 0
  else of_binary negative
         (if scale <=? 0 then round64 (m * 10 ^ (- scale)) 1
          else round64 m (10 ^ scale)).

(** The Number value of the integer [z]; up to [2^53] every integer is a
    binary64 value. *)
Definition of_integer (negative : bool) (z : Z) : number :=
  if z <=? 2 ^ 53 then Fin (signed negative z) 0
  else of_binary negative (round64 z 1).


(** ToBoolean on a number: 0 and NaN are falsy. *)
Definition truthy (x : number) : bool :=
  match x with
  | NaN => false
  | Infinity _ => true
  | Fin m _ => negb (m =? 0)
  end.

(** [x > 0], [x >= 0] and [x <= k] for an integer literal [k]; every
    comparison with NaN is false. *)
Definition gt0 (x : number) : bool :=
  match x with
  | NaN => false
  | Infinity negative => negb negative
  | Fin m _ => 0 <? m
  end.

Definition ge0 (x : number) : bool :=
  match x with
  | NaN => false
  | Infinity negative => negb negative
  | Fin m _ => 0 <=? m
  end.

Definition le_int (x : number) (k : Z) : bool :=
  match x with
  | NaN => false
  | Infinity negative => negative
  | Fin m e => m <=? k * 10 ^ Z.of_nat e
  end.

(** A string is held as the bytes of its UTF-8 encoding. *)
Definition chars (s : string) : list ascii := list_ascii_of_string s.
Definition str (l : list ascii) : string := string_of_list_ascii l.

Definition byte (c : ascii) : Z := Z.of_nat (nat_of_ascii c).

(** WhiteSpace and LineTerminator code points below U+0080: TAB, LF, VT,
    FF, CR, SP. *)
Definition is_white (c : ascii) : bool :=
  let n := byte c in
  ((9 <=? n) && (n <=? 13)) || (n =? 32).

(** U+00A0, in UTF-8. *)
Definition is_white2 (c1 c2 : ascii) : bool :=
  (byte c1 =? 194) && (byte c2 =? 160).

(** U+1680, U+2000 to U+200A, U+2028, U+2029, U+202F, U+205F, U+3000 and
    U+FEFF, in UTF-8. *)
Definition is_white3 (c1 c2 c3 : ascii) : bool :=
  let '(n1, n2, n3) := (byte c1, byte c2, byte c3) in
  ((n1 =? 225) && (n2 =? 154) && (n3 =? 128))
  || ((n1 =? 226) && (n2 =? 128)
      && (((128 <=? n3) && (n3 <=? 138)) || (n3 =? 168) || (n3 =? 169) || (n3 =? 175)))
  || ((n1 =? 226) && (n2 =? 129) && (n3 =? 159))
  || ((n1 =? 227) && (n2 =? 128) && (n3 =? 128))
  || ((n1 =? 239) && (n2 =? 187) && (n3 =? 191)).

(** [s] without the white space code points at its head. *)
Fixpoint trim_start (s : list ascii) : list ascii :=
  match s with
  | [] => []
  | c1 :: r1 =>
      if is_white c1 then trim_start r1 else
      match r1 with
      | [] => s
      | c2 :: r2 =>
          if is_white2 c1 c2 then trim_start r2 else
          match r2 with
          | [] => s
          | c3 :: r3 => if is_white3 c1 c2 c3 then trim_start r3 else s
          end
      end
  end.

Definition digit_val (radix : Z) (c : ascii) : option Z :=
  let n := Z.of_nat (nat_of_ascii c) in
  let v :=
    if (48 <=? n) && (n <=? 57) then n - 48
    else if (97 <=? n) && (n <=? 122) then n - 87
    else if (65 <=? n) && (n <=? 90) then n - 55
    else 36 in
  if v <? radix then Some v else None.

(** The longest prefix of [s] made of digits of the radix. *)
Fixpoint digits_prefix (radix : Z) (s : list ascii) : list Z :=
  match s with
  | c :: r =>
      match digit_val radix c with
      | Some d => d :: digits_prefix radix r
      | None => []
      end
  | [] => []
  end.

Definition digits_value (radix : Z) (ds : list Z) : Z :=
  fold_left (fun acc d => acc * radix + d) ds 0.

Definition take_sign (s : list ascii) : bool * list ascii :=
  match s with
  | "-"%char :: r => (true, r)
  | "+"%char :: r => (false, r)
  | _ => (false, s)
  end.

(** [parseInt(string)] with the radix argument undefined. *)
Definition parseInt_chars (s : list ascii) : number :=
  let '(negative, s2) := take_sign (trim_start s) in
  let '(radix, s3) :=
    match s2 with
    | "0"%char :: "x"%char :: r => (16, r)
    | "0"%char :: "X"%char :: r => (16, r)
    | _ => (10, s2)
    end in
  match digits_prefix radix s3 with
  | [] => NaN
  | ds => of_integer negative (digits_value radix ds)
  end.

Definition starts_with (p s : list ascii) : bool :=
  match decide (take (length p) s = p) with
  | left _ => true
  | right _ => false
  end.

(** The exponent part of a StrDecimalLiteral at the head of [s], when it is
    there: [e] or [E], an optional sign, at least one digit. *)
Definition exponent_part (s : list ascii) : Z :=
  match s with
  | c :: r =>
      if Ascii.eqb c "e" || Ascii.eqb c "E" then
        let '(negative, r') := take_sign r in
        match digits_prefix 10 r' with
        | [] => 0
        | ds => signed negative (digits_value 10 ds)
        end
      else 0
  | [] => 0
  end.

(** [parseFloat(string)]: the longest prefix that is a StrDecimalLiteral. *)
Definition parseFloat_chars (s : list ascii) : number :=
  let '(negative, s2) := take_sign (trim_start s) in
  if starts_with (chars "Infinity") s2 then Infinity negative else
  let ip := digits_prefix 10 s2 in
  let s3 := drop (length ip) s2 in
  let '(fp, s4) :=
    match s3 with
    | "."%char :: r => (digits_prefix 10 r, drop (length (digits_prefix 10 r)) r)
    | _ => ([], s3)
    end in
  match ip ++ fp with
  | [] => NaN
  | ds => of_decimal negative (digits_value 10 ds)
                     (Z.of_nat (length fp) - exponent_part s4)
  end.

Definition pos_digits (p : positive) : list ascii :=
  chars (NilEmpty.string_of_uint (Pos.to_uint p)).

Definition nat_digits (n : nat) : list ascii :=
  chars (NilZero.string_of_uint (Nat.to_uint n)).

Definition is_zero_char (c : ascii) : bool := Ascii.eqb c "0".

Fixpoint drop_zeros (l : list ascii) : list ascii :=
  match l with
  | c :: r => if is_zero_char c then drop_zeros r else l
  | [] => []
  end.

(** The digits of [p] without its trailing zeros. *)
Definition significant (p : positive) : list ascii :=
  rev (drop_zeros (rev (pos_digits p))).

(** The notation of Number::toString for the decimal [p * 10^-e]: with
    [s] the [k] significant digits and [n] the position of the decimal
    point (the value is [0.s * 10^n]), plain notation when [-6 < n <= 21]
    and exponent notation otherwise. *)
Definition pos_to_chars (p : positive) (e : nat) : list ascii :=
  let s := significant p in
  let k := Z.of_nat (length s) in
  let n := Z.of_nat (length (pos_digits p)) - Z.of_nat e in
  if (k <=? n) && (n <=? 21) then
    s ++ repeat "0"%char (Z.to_nat (n - k))
  else if (0 <? n) && (n <=? 21) then
    take (Z.to_nat n) s ++ "."%char :: drop (Z.to_nat n) s
  else if (-6 <? n) && (n <=? 0) then
    "0"%char :: "."%char :: repeat "0"%char (Z.to_nat (- n)) ++ s
  else
    let x := n - 1 in
    let mantissa :=
      match s with
      | d :: (_ :: _) as r => d :: "."%char :: r
      | _ => s
      end in
    mantissa ++ "e"%char :: (if x <? 0 then "-"%char else "+"%char)
             :: nat_digits (Z.abs_nat x).

(** *** The digits Number::toString prints *)

(** Do [m1 * 2^x1] and [m2 * 2^x2] have the same value? *)
Definition same_binary (a b : Z * Z) : bool :=
  let '(m1, x1) := a in
  let '(m2, x2) := b in
  let x := Z.min x1 x2 in
  m1 * 2 ^ (x1 - x) =? m2 * 2 ^ (x2 - x).

Definition count_digits (z : Z) : Z := Z.of_nat (length (pos_digits (Z.to_pos z))).

(** The [n] with [10^(n-1) <= num / den < 10^n], both positive. *)
Definition decimal_point (num den : Z) : Z :=
  if den <=? num then count_digits (num / den)
  else 1 - count_digits ((den + num - 1) / num - 1).

(** [c * 10^j] as a fraction. *)
Definition scaled (c j : Z) : Z * Z :=
  if 0 <=? j then (c * 10 ^ j, 1) else (c, 10 ^ (- j)).

(** Does the decimal [c * 10^j] denote the binary64 value [b]? *)
Definition denotes (b : Z * Z) (c j : Z) : bool :=
  let '(num, den) := scaled c j in
  same_binary (round64 num den) b.

(** The decimal of [k] digits that denotes [b = num / den], when there
    is one: of the multiples of [10^(n-k)] on either side of [b], the one
    that denotes it; the nearer one when both do, the even one when they
    are as near. *)
Definition with_digits (b : Z * Z) (num den n k : Z) : option (Z * Z) :=
  let j := n - k in
  let '(a, d) := if 0 <=? j then (num, den * 10 ^ j) else (num * 10 ^ (- j), den) in
  let lo := a / d in
  let r := a mod d in
  let below := denotes b lo j in
  let above := denotes b (lo + 1) j in
  if below && above then
    match 2 * r ?= d with
    | Lt => Some (lo, j)
    | Gt => Some (lo + 1, j)
    | Eq => Some (if Z.even lo then lo else lo + 1, j)
    end
  else if below then Some (lo, j)
  else if above then Some (lo + 1, j)
  else None.

(** The first [k], counting up, that has such a decimal. *)
Fixpoint shortest (b : Z * Z) (num den n k : Z) (tries : nat) : option (Z * Z) :=
  match tries with
  | O => None
  | S tries' =>
      match with_digits b num den n k with
      | Some found => Some found
      | None => shortest b num den n (k + 1) tries'
      end
  end.

(** Number::toString of the positive finite value [p * 10^-e]: the
    binary64 value is printed with as few digits as denote it, which 17
    digits always do. *)
Definition finite_to_chars (p : positive) (e : nat) : list ascii :=
  let b := round64 (Z.pos p) (10 ^ Z.of_nat e) in
  let '(m, x) := b in
  if m =? 0 then chars "0"
  else if (0 <=? x) && (2 ^ 1024 <=? m * 2 ^ x) then chars "Infinity"
  else
    let '(num, den) := if 0 <=? x then (m * 2 ^ x, 1) else (m, 2 ^ (- x)) in
    match shortest b num den (decimal_point num den) 1 17 with
    | Some (c, j) =>
        if 0 <=? j then pos_to_chars (Z.to_pos (c * 10 ^ j)) 0
        else pos_to_chars (Z.to_pos c) (Z.to_nat (- j))
    | None => pos_to_chars p e
    end.

Definition to_chars (x : number) : list ascii :=
  match x with
  | NaN => chars "NaN"
  | Infinity negative => chars (if negative then "-Infinity" else "Infinity")
  | Fin 0 _ => chars "0"
  | Fin (Z.pos p) e => finite_to_chars p e
  | Fin (Z.neg p) e =>
      match finite_to_chars p e with
      | ["0"%char] => chars "0"
      | printed => "-"%char :: printed
      end
  end.

(** The values the code passes around where a number is expected. *)
Inductive value : Type :=
| VUndefined
| VNull
| VNum (x : number)
| VStr (s : string).

(** [String(v)], also what a template literal does with [v]. *)
Definition ToString (v : value) : string :=
  match v with
  | VUndefined => "undefined"
  | VNull => "null"
  | VNum x => str (to_chars x)
  | VStr s => s
  end.

(** ToBoolean. *)
Definition ToBoolean (v : value) : bool :=
  match v with
  | VUndefined | VNull => false
  | VNum x => truthy x
  | VStr s => negb (String.eqb s "")
  end.

(** [parseInt] and [parseFloat] first convert their argument to a string. *)
Definition parseInt (v : value) : number := parseInt_chars (chars (ToString v)).
Definition parseFloat (v : value) : number := parseFloat_chars (chars (ToString v)).

(** [Array.prototype.sort(comparefn)].  The sort is stable, and with a
    consistent comparator every stable sort returns the same array; it is
    written here as an insertion sort: an element passes the elements of
    the sorted rest it compares above ([comparefn x y > 0]) and stops at
    the first one it does not. *)
Section Sort.
Context {A : Type} (comparefn : A -> A -> Z).

Fixpoint insert (x : A) (l : list A) : list A :=
  match l with
  | [] => [x]
  | y :: r => if 0 <? comparefn x y then y :: insert x r else x :: l
  end.

Fixpoint sort (l : list A) : list A :=
  match l with
  | [] => []
  | x :: r => insert x (sort r)
  end.
End Sort.

End JS.


Arguments JS.parseInt : simpl never.
Arguments JS.parseFloat : simpl never.
Arguments JS.ToString : simpl never.
Arguments JS.ToBoolean : simpl never.

(** ** Data model: the rows of the remote tables *)

Module Exercise.
Record t : Type := mk {
  id : string;
  user_id : string;
  name : string;
  category : option string;
  notes : option string;
  is_archived : bool
}.
End Exercise.

(** The argument of [createExercise]: the fields a screen fills in. *)
Module ExerciseData.
Record t : Type := mk {
  name : string;
  category : option string;
  notes : option string
}.
End ExerciseData.

Module Workout.
Record t : Type := mk {
  id : string;
  user_id : string;
  date : string;
  note : option string
}.
End Workout.

(** A row of [sets]: [reps] and [order_index] are integer columns,
    [weight] a nullable numeric column. *)
Module Set_.
Record t : Type := mk {
  id : string;
  workout_id : string;
  exercise_id : string;
  reps : Z;
  weight : option JS.number;
  order_index : Z
}.
End Set_.

(** The object [addSet] sends to [database.createSet]. *)
Module SetData.
Record t : Type := mk {
  workout_id : string;
  exercise_id : string;
  reps : JS.number;
  weight : option JS.number;
  order_index : Z
}.
End SetData.

(** A set joined with its exercise, [{...set, exercise: {name}}]; the
    join [exercise:exercises(name)] is null when the exercise row is not
    visible. *)
Module SetWithExercise.
Record t : Type := mk {
  set : Set_.t;
  exercise : option string
}.
Definition id (s : t) : string := Set_.id (set s).
Definition exercise_id (s : t) : string := Set_.exercise_id (set s).
Definition reps (s : t) : Z := Set_.reps (set s).
Definition weight (s : t) : option JS.number := Set_.weight (set s).
Definition order_index (s : t) : Z := Set_.order_index (set s).
End SetWithExercise.

(** A workout with its nested sets, as the export query and the history
    return it. *)
Module WorkoutWithSets.
Record t : Type := mk {
  workout : Workout.t;
  sets : list SetWithExercise.t
}.
Definition date (w : t) : string := Workout.date (workout w).
End WorkoutWithSets.

(** ** The host: remote store, clock, AsyncStorage, collation *)

Record PostgrestError : Type := mkError { code : string; message : string }.

(** What a query of the supabase client resolves to, [{data, error}]:
    exactly one of the two is set. *)
Inductive Response (A : Type) : Type :=
| Ok (data : A)
| Failed (error : PostgrestError).
Arguments Ok {A} data.
Arguments Failed {A} error.

(** What an operation can throw. *)
Inductive exn : Type :=
| StoreError (e : PostgrestError)
| JsError (msg : string)
| TypeError (msg : string)
| StorageError.

Inductive remote_call : Type :=
| GetUser
| SelectExercises (user_id : string)
| InsertExercise (user_id : string) (exercise : ExerciseData.t)
| ArchiveExercise (id : string)
| SelectWorkout (user_id date : string)
| InsertWorkout (user_id date : string) (note : option string)
| SelectWorkouts (user_id startDate endDate : string)
| SelectSets (workout_id : string)
| InsertSet (set : SetData.t)
| DeleteSet (id : string)
| SelectExport (user_id : string).

Inductive event : Type :=
| Remote (c : remote_call)
| StorageGet (key : string)
| StorageSet (key : string) (value : list Exercise.t)
| ConsoleError (msg : string).

(** The answers of everything outside the program.  A list query may
    answer [data = null], hence the [option]. *)
Record Env : Type := mkEnv {
  auth_user : option string;
  today : string;
  select_exercises : string -> Response (option (list Exercise.t));
  insert_exercise : string -> ExerciseData.t -> Response Exercise.t;
  archive_exercise : string -> Response unit;
  select_workout : string -> string -> Response Workout.t;
  insert_workout : string -> string -> option string -> Response Workout.t;
  select_workouts : string -> string -> string -> Response (option (list Workout.t));
  select_sets : string -> Response (option (list SetWithExercise.t));
  insert_set : SetData.t -> Response Set_.t;
  delete_set : string -> Response unit;
  select_export : string -> Response (option (list WorkoutWithSets.t));
  storage_ok : bool;
  localeCompare : string -> string -> Z
}.

(** ** State of the provider and the operation monad *)

Record State : Type := mkState {
  exercises : list Exercise.t;
  todayWorkout : option Workout.t;
  todaySets : list SetWithExercise.t;
  loading : bool;
  syncing : bool
}.

(** The React state of [DataProvider] and the AsyncStorage entry
    ['exercises'] (its JSON text is kept parsed). *)
Record World : Type := mkWorld {
  state : State;
  storage : option (list Exercise.t)
}.

Inductive outcome (A : Type) : Type :=
| Resolved (a : A)
| Rejected (error : exn).
Arguments Resolved {A} a.
Arguments Rejected {A} error.

Record run (A : Type) : Type := mkRun {
  trace : list event;
  world : World;
  result : outcome A
}.
Arguments mkRun {A} trace world result.
Arguments trace {A} r.
Arguments world {A} r.
Arguments result {A} r.

Definition M (A : Type) : Type := World -> run A.

Definition ret {A} (a : A) : M A := fun w => mkRun [] w (Resolved a).

Definition throw {A} (error : exn) : M A := fun w => mkRun [] w (Rejected error).

Definition bind {A B} (m : M A) (k : A -> M B) : M B := fun w =>
  match m w with
  | mkRun t w1 (Resolved a) =>
      match k a w1 with
      | mkRun t' w2 o => mkRun (t ++ t') w2 o
      end
  | mkRun t w1 (Rejected error) => mkRun t w1 (Rejected error)
  end.

(** [try { m } catch (error) { handler }] *)
Definition try_catch {A} (m : M A) (handler : exn -> M A) : M A := fun w =>
  match m w with
  | mkRun t w1 (Resolved a) => mkRun t w1 (Resolved a)
  | mkRun t w1 (Rejected error) =>
      match handler error w1 with
      | mkRun t' w2 o => mkRun (t ++ t') w2 o
      end
  end.

(** [try { m } finally { f }]: the settlement of [m] stands unless [f]
    throws. *)
Definition try_finally {A} (m : M A) (f : M unit) : M A := fun w =>
  match m w with
  | mkRun t w1 o =>
      match f w1 with
      | mkRun t' w2 (Resolved _) => mkRun (t ++ t') w2 o
      | mkRun t' w2 (Rejected error) => mkRun (t ++ t') w2 (Rejected error)
      end
  end.

Definition emit (e : event) : M unit := fun w => mkRun [e] w (Resolved tt).

Definition console_error (msg : string) : M unit := emit (ConsoleError msg).

Definition modify (f : State -> State) : M unit := fun w =>
  mkRun [] (mkWorld (f (state w)) (storage w)) (Resolved tt).

Declare Scope op_scope.
Delimit Scope op_scope with op.
Notation "'let*' x ':=' m 'in' k" := (bind m (fun x => k))
  (at level 10, x name, m at level 100, k at level 200) : op_scope.
Notation "m '>>' k" := (bind m (fun _ => k))
  (at level 190, right associativity) : op_scope.
Open Scope op_scope.

(** ** [lib/supabase.js]: the [database] object *)

Module Supabase.
Section Database.
Variable env : Env.

(** [supabase.auth.getUser()], then [if (!user) throw new Error(...)]. *)
Definition getUser : M string :=
  emit (Remote GetUser) >>
  match auth_user env with
  | Some user => ret user
  | None => throw (JsError "No authenticated user")
  end.

(** One request to the store and its answer. *)
Definition query {A} (c : remote_call) (answer : Response A) : M (Response A) :=
  emit (Remote c) >> ret answer.

(** [if (error) { console.error(msg, error); throw error; }  return data;] *)
Definition data_or_throw {A} (msg : string) (r : Response A) : M A :=
  match r with
  | Failed error => console_error msg >> throw (StoreError error)
  | Ok data => ret data
  end.

(** The outer [catch (error) { console.error(msg, error); throw error; }]
    every function of [database] ends with. *)
Definition rethrowing {A} (msg : string) (m : M A) : M A :=
  try_catch m (fun error => console_error msg >> throw error).

(** [data || []] *)
Definition or_empty {A} (data : option (list A)) : list A :=
  match data with
  | Some l => l
  | None => []
  end.

Definition getExercises : M (list Exercise.t) :=
  rethrowing "Error in getExercises:" (
    let* user := getUser in
    let* r := query (SelectExercises user) (select_exercises env user) in
    let* data := data_or_throw "Error getting exercises:" r in
    ret (or_empty data)).

Definition createExercise (exercise : ExerciseData.t) : M Exercise.t :=
  rethrowing "Error in createExercise:" (
    let* user := getUser in
    let* r := query (InsertExercise user exercise) (insert_exercise env user exercise) in
    data_or_throw "Error creating exercise:" r).

Definition deleteExercise (id : string) : M unit :=
  rethrowing "Error in deleteExercise:" (
    let* r := query (ArchiveExercise id) (archive_exercise env id) in
    data_or_throw "Error deleting exercise:" r).

(** The row-not-found code of [.single()] is let through: the function
    then returns the [data] of the failed response, which is null. *)
Definition getTodaysWorkout : M (option Workout.t) :=
  rethrowing "Error in getTodaysWorkout:" (
    let* user := getUser in
    let* r := query (SelectWorkout user (today env)) (select_workout env user (today env)) in
    match r with
    | Failed error =>
        if negb (String.eqb (code error) "PGRST116")
        then console_error "Error getting today workout:" >> throw (StoreError error)
        else ret None
    | Ok data => ret (Some data)
    end).

Definition createWorkout (date : string) (note : option string) : M Workout.t :=
  rethrowing "Error in createWorkout:" (
    let* user := getUser in
    let* r := query (InsertWorkout user date note) (insert_workout env user date note) in
    data_or_throw "Error creating workout:" r).

Definition getWorkoutsByDateRange (startDate endDate : string) : M (list Workout.t) :=
  rethrowing "Error in getWorkoutsByDateRange:" (
    let* user := getUser in
    let* r := query (SelectWorkouts user startDate endDate)
                    (select_workouts env user startDate endDate) in
    let* data := data_or_throw "Error getting workouts by date range:" r in
    ret (or_empty data)).

Definition getSetsForWorkout (workoutId : string) : M (list SetWithExercise.t) :=
  rethrowing "Error in getSetsForWorkout:" (
    let* r := query (SelectSets workoutId) (select_sets env workoutId) in
    let* data := data_or_throw "Error getting sets for workout:" r in
    ret (or_empty data)).

Definition createSet (set : SetData.t) : M Set_.t :=
  rethrowing "Error in createSet:" (
    let* r := query (InsertSet set) (insert_set env set) in
    data_or_throw "Error creating set:" r).

Definition deleteSet (id : string) : M unit :=
  rethrowing "Error in deleteSet:" (
    let* r := query (DeleteSet id) (delete_set env id) in
    data_or_throw "Error deleting set:" r).

Definition exportData : M (list WorkoutWithSets.t) :=
  rethrowing "Error in exportData:" (
    let* user := getUser in
    let* r := query (SelectExport user) (select_export env user) in
    let* workouts := data_or_throw "Error exporting data:" r in
    ret (or_empty workouts)).

End Database.
End Supabase.

(** ** [contexts/DataContext.js]: the operations of [DataProvider] *)

Definition newline : string := String "010"%char EmptyString.

Module DataContext.

Record Stats : Type := mkStats {
  totalSets : nat;
  exerciseCount : nat;
  totalReps : Z
}.

Section Provider.
Variable env : Env.

(** The state setters. *)
Definition setExercises (v : list Exercise.t) : M unit :=
  modify (fun s => mkState v (todayWorkout s) (todaySets s) (loading s) (syncing s)).
Definition setTodayWorkout (v : option Workout.t) : M unit :=
  modify (fun s => mkState (exercises s) v (todaySets s) (loading s) (syncing s)).
Definition setTodaySets (v : list SetWithExercise.t) : M unit :=
  modify (fun s => mkState (exercises s) (todayWorkout s) v (loading s) (syncing s)).
Definition setLoading (v : bool) : M unit :=
  modify (fun s => mkState (exercises s) (todayWorkout s) (todaySets s) v (syncing s)).
Definition setSyncing (v : bool) : M unit :=
  modify (fun s => mkState (exercises s) (todayWorkout s) (todaySets s) (loading s) v).

(** [AsyncStorage.getItem('exercises')] and
    [AsyncStorage.setItem('exercises', JSON.stringify(value))]. *)
Definition getItem : M (option (list Exercise.t)) := fun w =>
  mkRun [StorageGet "exercises"] w
        (if storage_ok env then Resolved (storage w) else Rejected StorageError).

Definition setItem (value : list Exercise.t) : M unit := fun w =>
  if storage_ok env
  then mkRun [StorageSet "exercises" value] (mkWorld (state w) (Some value)) (Resolved tt)
  else mkRun [StorageSet "exercises" value] w (Rejected StorageError).

Definition loadTodayWorkout : M unit :=
  try_catch (
    let* workout := Supabase.getTodaysWorkout env in
    setTodayWorkout workout >>
    match workout with
    | Some w =>
        let* sets := Supabase.getSetsForWorkout env (Workout.id w) in
        setTodaySets sets
    | None => setTodaySets []
    end)
  (fun error =>
    console_error "Error loading today workout:" >>
    setTodaySets []).

Definition syncData : M unit :=
  try_finally
    (try_catch (
       setSyncing true >>
       let* exercisesData := Supabase.getExercises env in
       setExercises exercisesData >>
       setItem exercisesData >>
       loadTodayWorkout)
     (fun error => console_error "Error syncing data:"))
    (setSyncing false).

Definition loadData : M unit :=
  try_finally
    (try_catch (
       setLoading true >>
       let* cachedExercises := getItem in
       match cachedExercises with
       | Some cached => setExercises cached
       | None => ret tt
       end >>
       syncData)
     (fun error => console_error "Error loading data:"))
    (setLoading false).

(** The operations below close over the state of the render they were
    created in, [view]; the setters write the live state. *)
Section Render.
Variable view : State.

Definition by_name (a b : Exercise.t) : Z :=
  localeCompare env (Exercise.name a) (Exercise.name b).

Definition createExercise (exerciseData : ExerciseData.t) : M Exercise.t :=
  try_catch (
    let* newExercise := Supabase.createExercise env exerciseData in
    let updatedExercises := JS.sort by_name (exercises view ++ [newExercise]) in
    setExercises updatedExercises >>
    setItem updatedExercises >>
    ret newExercise)
  (fun error => console_error "Error creating exercise:" >> throw error).

Definition deleteExercise (exerciseId : string) : M unit :=
  try_catch (
    Supabase.deleteExercise env exerciseId >>
    let updatedExercises :=
      filter (fun ex => Exercise.id ex ≠ exerciseId) (exercises view) in
    setExercises updatedExercises >>
    setItem updatedExercises)
  (fun error => console_error "Error deleting exercise:" >> throw error).

(** [exercise?.name || 'Unknown'] *)
Definition display_name (exercise : option Exercise.t) : string :=
  match exercise with
  | Some ex => if String.eqb (Exercise.name ex) "" then "Unknown" else Exercise.name ex
  | None => "Unknown"
  end.

(** [weight = null] is the default of the parameter: undefined
    becomes null. *)
Definition addSet (exerciseId : string) (reps weight : JS.value) : M Set_.t :=
  let weight := match weight with JS.VUndefined => JS.VNull | _ => weight end in
  try_catch (
    let* workout :=
      match todayWorkout view with
      | Some workout => ret workout
      | None =>
          let* workout := Supabase.createWorkout env (today env) None in
          setTodayWorkout (Some workout) >>
          ret workout
      end in
    let setData := {|
      SetData.workout_id := Workout.id workout;
      SetData.exercise_id := exerciseId;
      SetData.reps := JS.parseInt reps;
      SetData.weight := if JS.ToBoolean weight then Some (JS.parseFloat weight) else None;
      SetData.order_index := Z.of_nat (length (todaySets view))
    |} in
    let* newSet := Supabase.createSet env setData in
    let exercise :=
      find (fun ex => String.eqb (Exercise.id ex) exerciseId) (exercises view) in
    let setWithExercise := {|
      SetWithExercise.set := newSet;
      SetWithExercise.exercise := Some (display_name exercise)
    |} in
    setTodaySets (todaySets view ++ [setWithExercise]) >>
    ret newSet)
  (fun error => console_error "Error adding set:" >> throw error).

Definition deleteSet (setId : string) : M unit :=
  try_catch (
    Supabase.deleteSet env setId >>
    setTodaySets (filter (fun set => SetWithExercise.id set ≠ setId) (todaySets view)))
  (fun error => console_error "Error deleting set:" >> throw error).

(** A synchronous closure: it calls no setter and awaits nothing. *)
Definition getTodayStats : M Stats :=
  let totalSets := length (todaySets view) in
  let exerciseCount :=
    size (list_to_set (map SetWithExercise.exercise_id (todaySets view)) : gset string) in
  let totalReps :=
    fold_left (fun sum set => sum + SetWithExercise.reps set) (todaySets view) 0 in
  ret (mkStats totalSets exerciseCount totalReps).
End Render.

(** [set.weight || ''] inside the template literal. *)
Definition weight_field (weight : option JS.number) : string :=
  match weight with
  | Some w => if JS.truthy w then JS.ToString (JS.VNum w) else ""
  | None => ""
  end.

(** One row of the export; reading [set.exercise.name] throws when the
    joined exercise is null. *)
Definition csv_row (workout : WorkoutWithSets.t) (index : nat) (set : SetWithExercise.t)
  : option string :=
  match SetWithExercise.exercise set with
  | None => None
  | Some name =>
      Some (WorkoutWithSets.date workout +:+ "," +:+ name +:+ "," +:+
            JS.ToString (JS.VNum (JS.of_nat (index + 1))) +:+ "," +:+
            JS.ToString (JS.VNum (JS.of_Z (SetWithExercise.reps set))) +:+ "," +:+
            weight_field (SetWithExercise.weight set))
  end.

Fixpoint all_rows (rows : list (option string)) : option (list string) :=
  match rows with
  | [] => Some []
  | Some r :: rest =>
      match all_rows rest with
      | Some l => Some (r :: l)
      | None => None
      end
  | None :: _ => None
  end.

(** The two nested [forEach] loops pushing into [csvRows]. *)
Definition csvRows (data : list WorkoutWithSets.t) : option (list string) :=
  match all_rows (concat (map (fun workout =>
                                 imap (csv_row workout) (WorkoutWithSets.sets workout))
                              data)) with
  | Some rows => Some ("Date,Exercise,Set,Reps,Weight" :: rows)
  | None => None
  end.

Definition exportData : M string :=
  try_catch (
    let* data := Supabase.exportData env in
    match csvRows data with
    | Some rows => ret (String.concat newline rows)
    | None => throw (TypeError "Cannot read properties of null (reading 'name')")
    end)
  (fun error => console_error "Error exporting data:" >> throw error).

End Provider.
End DataContext.

(** ** [screens/AddSetScreen.js]: the form schema and the submit handler *)

Module AddSetScreen.

(** What the two text inputs hold, and what the schema turns them into. *)
Record FormValues : Type := mkForm { reps_input : JS.value; weight_input : JS.value }.
Record FormData : Type := mkData { reps : JS.number; weight : option JS.number }.

(** [z.string().min(1).transform(val => parseInt(val))
       .refine(val => val > 0 && val <= 999)] *)
Definition reps_schema (v : JS.value) : option JS.number :=
  match v with
  | JS.VStr s =>
      if (1 <=? String.length s)%nat then
        let val := JS.parseInt (JS.VStr s) in
        if JS.gt0 val && JS.le_int val 999 then Some val else None
      else None
  | _ => None
  end.

(** [.refine(val => val === null || (val >= 0 && val <= 9999))] *)
Definition weight_refine (val : option JS.number) : option (option JS.number) :=
  match val with
  | None => Some None
  | Some x => if JS.ge0 x && JS.le_int x 9999 then Some (Some x) else None
  end.

(** [z.string().optional().transform(val => val === '' ? null : parseFloat(val))]
    followed by the refinement. *)
Definition weight_schema (v : JS.value) : option (option JS.number) :=
  match v with
  | JS.VStr s =>
      weight_refine (if String.eqb s "" then None else Some (JS.parseFloat (JS.VStr s)))
  | JS.VUndefined => weight_refine (Some (JS.parseFloat JS.VUndefined))
  | _ => None
  end.

Definition setSchema (values : FormValues) : option FormData :=
  match reps_schema (reps_input values), weight_schema (weight_input values) with
  | Some r, Some w => Some (mkData r w)
  | _, _ => None
  end.

Section Screen.
Variable env : Env.
Variable view : State.
Variable selectedExercise : option Exercise.t.

Definition weight_value (w : option JS.number) : JS.value :=
  match w with
  | Some x => JS.VNum x
  | None => JS.VNull
  end.

(** The handler resolves to the text it shows in the snackbar. *)
Definition onSubmit (data : FormData) : M string :=
  match selectedExercise with
  | None => ret "Please select an exercise"
  | Some exercise =>
      try_catch (
        DataContext.addSet env view (Exercise.id exercise)
                           (JS.VNum (reps data)) (weight_value (weight data)) >>
        ret "Set added successfully!")
      (fun error => console_error "Add set error:" >> ret "Failed to add set")
  end.

(** [handleSubmit(onSubmit)] with [zodResolver(setSchema)]: the handler
    runs on the parsed data, and only when the schema accepts the
    values; otherwise the field errors are shown. *)
Definition handleSubmit (values : FormValues) : M (option string) :=
  match setSchema values with
  | Some data => let* text := onSubmit data in ret (Some text)
  | None => ret None
  end.
End Screen.

End AddSetScreen.

(** ** Notions the properties are stated with *)

(** A comparator the way [Array.prototype.sort] needs it: the signs of
    [cmp a b] and [cmp b a] are opposite, and "not above" is transitive. *)
Record consistent_comparator {A : Type} (cmp : A -> A -> Z) : Prop := {
  cmp_antisym : forall a b, 0 < cmp a b <-> cmp b a < 0;
  cmp_trans : forall a b c, cmp a b <= 0 -> cmp b c <= 0 -> cmp a c <= 0
}.

(** [a] does not sort after [b] under the comparator. *)
Definition not_above {A : Type} (cmp : A -> A -> Z) (a b : A) : Prop := cmp a b <= 0.

(** [a] does not sort after [b] by name. *)
Definition name_le (env : Env) : Exercise.t -> Exercise.t -> Prop :=
  not_above (DataContext.by_name env).

Definition sorted_by_name (env : Env) (l : list Exercise.t) : Prop :=
  Sorted (name_le env) l.

(** The position of the set at [index] within its exercise group: one more
    than the number of earlier sets of the workout with the same exercise. *)
Definition position_in_exercise_group (sets : list SetWithExercise.t) (index : nat) : nat :=
  match sets !! index with
  | Some set =>
      S (length (filter (fun s => SetWithExercise.exercise_id s = SetWithExercise.exercise_id set)
                        (take index sets)))
  | None => 0
  end.

(** The number of distinct values of a list, and the sum of the reps. *)
Definition count_distinct (l : list string) : nat := length (remove_dups l).

Definition sum_reps (sets : list SetWithExercise.t) : Z :=
  foldr (fun set acc => SetWithExercise.reps set + acc) 0 sets.

(** A weight that is absent or zero (or NaN): the falsy weights. *)
Definition falsy_weight (weight : option JS.number) : bool :=
  match weight with
  | Some w => negb (JS.truthy w)
  | None => true
  end.

Definition without_weight (s : SetWithExercise.t) : SetWithExercise.t :=
  let r := SetWithExercise.set s in
  SetWithExercise.mk
    (Set_.mk (Set_.id r) (Set_.workout_id r) (Set_.exercise_id r) (Set_.reps r) None
             (Set_.order_index r))
    (SetWithExercise.exercise s).

(** The same export data with every falsy weight replaced by null. *)
Definition erase_falsy_weights (data : list WorkoutWithSets.t) : list WorkoutWithSets.t :=
  map (fun w =>
         WorkoutWithSets.mk (WorkoutWithSets.workout w)
           (map (fun s => if falsy_weight (SetWithExercise.weight s) then without_weight s else s)
                (WorkoutWithSets.sets w)))
      data.

(** The store answers an insert into [sets] with the row it inserted. *)
Definition store_returns_inserted_set (env : Env) : Prop :=
  forall d row, insert_set env d = Ok row ->
    Set_.workout_id row = SetData.workout_id d /\
    Set_.exercise_id row = SetData.exercise_id d /\
    JS.of_Z (Set_.reps row) = SetData.reps d /\
    Set_.weight row = SetData.weight d /\
    Set_.order_index row = SetData.order_index d.

(** The constraints on the arguments of [addSet]: reps an integer in
    1..999, weight absent or a decimal in 0..9999. *)
Definition valid_reps (reps : JS.value) : Prop :=
  exists z, reps = JS.VNum (JS.Fin z 0) /\ 1 <= z <= 999.

Definition valid_weight (weight : JS.value) : Prop :=
  weight = JS.VNull \/ weight = JS.VUndefined \/
  exists m e, weight = JS.VNum (JS.Fin m e) /\ 0 <= m <= 9999 * 10 ^ Z.of_nat e.

(** ** Sample data *)

Module Sample.

(** A collation for the examples: the order of the code units. *)
Definition code_unit_compare (a b : string) : Z :=
  match String.compare a b with
  | Lt => -1
  | Eq => 0
  | Gt => 1
  end.

Definition push_ups : Exercise.t := Exercise.mk "e2" "u1" "Push-ups" None None false.
Definition squats : Exercise.t := Exercise.mk "e3" "u1" "Squats" None None false.

Definition new_year : Workout.t := Workout.mk "w1" "u1" "2024-01-01" None.

Definition a_set (id exercise_id name : string) (reps : Z) (weight : option JS.number)
           (order_index : Z) : SetWithExercise.t :=
  SetWithExercise.mk (Set_.mk id "w1" exercise_id reps weight order_index) (Some name).

Definition push_ups_10 := a_set "s1" "e2" "Push-ups" 10 None 0.
Definition squats_5 := a_set "s2" "e3" "Squats" 5 None 1.
Definition push_ups_8 := a_set "s3" "e2" "Push-ups" 8 (Some (JS.Fin 20 0)) 2.

Definition server_error : PostgrestError := mkError "500" "Internal Server Error".
Definition no_rows : PostgrestError := mkError "PGRST116" "The result contains 0 rows".

Definition not_an_integer : PostgrestError :=
  mkError "22P02" "invalid input syntax for type integer".

(** The insertion of a set: the row gets a fresh id; [reps] is an integer
    column, anything else is refused. *)
Definition inserted_set (d : SetData.t) : Response Set_.t :=
  match SetData.reps d with
  | JS.Fin m 0 =>
      Ok (Set_.mk "s-new" (SetData.workout_id d) (SetData.exercise_id d) m
                  (SetData.weight d) (SetData.order_index d))
  | _ => Failed not_an_integer
  end.

(** A store in working order: one user, two exercises, today's workout
    with two sets; inserts answer with the inserted row. *)
Definition env : Env := {|
  auth_user := Some "u1";
  today := "2024-01-01";
  select_exercises := fun _ => Ok (Some [push_ups; squats]);
  insert_exercise := fun user d =>
    Ok (Exercise.mk "e-new" user (ExerciseData.name d) (ExerciseData.category d)
                    (ExerciseData.notes d) false);
  archive_exercise := fun _ => Ok tt;
  select_workout := fun _ _ => Ok new_year;
  insert_workout := fun user date note => Ok (Workout.mk "w-new" user date note);
  select_workouts := fun _ _ _ => Ok (Some [new_year]);
  select_sets := fun _ => Ok (Some [push_ups_10; squats_5]);
  insert_set := inserted_set;
  delete_set := fun _ => Ok tt;
  select_export := fun _ =>
    Ok (Some [WorkoutWithSets.mk new_year [push_ups_10; squats_5; push_ups_8]]);
  storage_ok := true;
  localeCompare := code_unit_compare
|}.

(** The same store with one of its answers replaced by a failure. *)
Definition with_select_workout (r : Response Workout.t) (e : Env) : Env :=
  mkEnv (auth_user e) (today e) (select_exercises e) (insert_exercise e) (archive_exercise e)
        (fun _ _ => r) (insert_workout e) (select_workouts e) (select_sets e) (insert_set e)
        (delete_set e) (select_export e) (storage_ok e) (localeCompare e).

Definition with_insert_set (r : Response Set_.t) (e : Env) : Env :=
  mkEnv (auth_user e) (today e) (select_exercises e) (insert_exercise e) (archive_exercise e)
        (select_workout e) (insert_workout e) (select_workouts e) (select_sets e) (fun _ => r)
        (delete_set e) (select_export e) (storage_ok e) (localeCompare e).

(** The state after a first launch with nothing logged today, and after a
    synchronisation with the store above. *)
Definition fresh : World :=
  mkWorld (mkState [push_ups; squats] None [] false false) (Some [push_ups; squats]).

Definition synced : World :=
  mkWorld (mkState [push_ups; squats] (Some new_year) [push_ups_10; squats_5] false false)
          (Some [push_ups; squats]).

End Sample.

(** ** [contexts/DataContext.js]: the workout history *)

Module WorkoutHistory.

Definition is_request (e : event) : bool :=
  match e with
  | Remote _ => true
  | _ => false
  end.

(** The calls of [Promise.all(array.map(async ...))], each of which sends
    its requests at once and handles the answers when they come: the
    requests of all the calls, in the order of the array; what the calls
    do with their answers until the promise settles, the answers coming
    in the order of the requests; the world, and the array of the values
    or the rejection of the first call that fails.  What the calls after
    that one do with their answers comes after the settlement. *)
Fixpoint start_all {A : Type} (ms : list (M A)) (w : World)
  : list event * list event * World * outcome (list A) :=
  match ms with
  | [] => ([], [], w, Resolved [])
  | m :: rest =>
      match m w with
      | mkRun t w1 o =>
          match start_all rest w1 with
          | (requests, answers, w2, o') =>
              (filter is_request t ++ requests,
               filter (fun e => negb (is_request e)) t ++
                 match o with
                 | Resolved _ => answers
                 | Rejected _ => []
                 end,
               w2,
               match o, o' with
               | Resolved a, Resolved l => Resolved (a :: l)
               | Resolved _, Rejected error => Rejected error
               | Rejected error, _ => Rejected error
               end)
          end
      end
  end.

(** [Promise.all(array.map(async ...))]: every call is started, in the
    order of the array, whether or not another one fails. *)
Definition promise_all {A : Type} (ms : list (M A)) : M (list A) := fun w =>
  match start_all ms w with
  | (requests, answers, w', o) => mkRun (requests ++ answers) w' o
  end.

Section History.
Variable env : Env.

(** [async (workout) => ({ ...workout, sets: await getSetsForWorkout(workout.id) })] *)
Definition with_sets (workout : Workout.t) : M WorkoutWithSets.t :=
  let* sets := Supabase.getSetsForWorkout env (Workout.id workout) in
  ret (WorkoutWithSets.mk workout sets).

Definition getWorkoutHistory (startDate endDate : string) : M (list WorkoutWithSets.t) :=
  try_catch (
    let* workouts := Supabase.getWorkoutsByDateRange env startDate endDate in
    let* workoutsWithSets := promise_all (map with_sets workouts) in
    ret workoutsWithSets)
  (fun error => console_error "Error getting workout history:" >> throw error).

End History.
End WorkoutHistory.

(** ** String built-ins the screens call *)

Module JSString.

(** [s] up to where only white space follows. *)
Fixpoint trim_end (s : list ascii) : list ascii :=
  match s with
  | [] => []
  | c :: r =>
      match JS.trim_start s with
      | [] => []
      | _ => c :: trim_end r
      end
  end.

(** [String.prototype.trim()]. *)
Definition trim (s : string) : string :=
  JS.str (trim_end (JS.trim_start (JS.chars s))).

(** The string is made of white space only. *)
Definition blank (s : string) : bool :=
  match JS.trim_start (JS.chars s) with
  | [] => true
  | _ => false
  end.

End JSString.

(** ** The Today screen ([TodayScreen], in [screens/AuthScreen.js]) and
       the grouping of sets it shares with [HistoryScreen.js] *)

Module TodayScreen.

(** The properties every object inherits from [Object.prototype] in
    ECMAScript, Annex B included. *)
Definition object_prototype_keys : list string :=
  ["constructor"; "__defineGetter__"; "__defineSetter__"; "hasOwnProperty";
   "__lookupGetter__"; "__lookupSetter__"; "isPrototypeOf"; "propertyIsEnumerable";
   "toString"; "valueOf"; "__proto__"; "toLocaleString"].

(** [set.exercise?.name || 'Unknown Exercise'] *)
Definition exerciseName (set : SetWithExercise.t) : string :=
  match SetWithExercise.exercise set with
  | Some name => if String.eqb name "" then "Unknown Exercise" else name
  | None => "Unknown Exercise"
  end.

Section Groups.
(** The names of the properties the host gives to [Object.prototype]:
    functions and objects, all truthy, none with a [push] method. *)
Variable inherited : list string.

(** One step of the [reduce]:
    [if (!groups[name]) groups[name] = [];  groups[name].push(set)].
    [groups] starts as [{}]: a name that is no key of its own but an
    inherited property reads as a truthy value without [push], and the
    call throws. *)
Definition push_set (groups : gmap string (list SetWithExercise.t)) (set : SetWithExercise.t)
  : outcome (gmap string (list SetWithExercise.t)) :=
  let name := exerciseName set in
  match groups !! name with
  | Some sets => Resolved (<[name := sets ++ [set]]> groups)
  | None =>
      if bool_decide (name ∈ inherited)
      then Rejected (TypeError "groups[exerciseName].push is not a function")
      else Resolved (<[name := [set]]> groups)
  end.

Fixpoint reduce_groups (sets : list SetWithExercise.t)
         (groups : gmap string (list SetWithExercise.t))
  : outcome (gmap string (list SetWithExercise.t)) :=
  match sets with
  | [] => Resolved groups
  | set :: rest =>
      match push_set groups set with
      | Resolved groups' => reduce_groups rest groups'
      | Rejected error => Rejected error
      end
  end.

(** [groupSetsByExercise(sets)] of the History screen, and [groupedSets]
    of the Today screen with [todaySets] for [sets]. *)
Definition groupSetsByExercise (sets : list SetWithExercise.t)
  : outcome (gmap string (list SetWithExercise.t)) :=
  reduce_groups sets ∅.
End Groups.

Section Screen.
Variable env : Env.

(** The handler resolves to the text it shows in the snackbar, if any. *)
Definition onRefresh : M (option string) :=
  try_catch (
    DataContext.syncData env >>
    ret None)
  (fun error => ret (Some "Failed to sync data")).

End Screen.
End TodayScreen.

(** ** The Settings screen ([SettingsScreen]) *)

Module SettingsScreen.
Section Screen.
Variable env : Env.

Definition handleSyncData : M string :=
  try_catch (
    DataContext.syncData env >>
    ret "Data synced successfully")
  (fun error => ret "Sync failed").

End Screen.
End SettingsScreen.

(** ** The dialog of the Add Set screen that creates an exercise *)

Module AddSetDialog.
Section Screen.
Variable env : Env.
Variable view : State.

(** [handleCreateExercise] of [AddSetScreen.js]: the text of the snackbar
    and the exercise that becomes the selected one. *)
Definition handleCreateExercise (newExerciseName : string) : M (string * option Exercise.t) :=
  if String.eqb (JSString.trim newExerciseName) ""
  then ret ("Exercise name required", None)
  else
    try_catch (
      let* exercise :=
        DataContext.createExercise env view
          (ExerciseData.mk (JSString.trim newExerciseName) None None) in
      ret ("Exercise created!", Some exercise))
    (fun error => ret ("Failed to create exercise", None)).

End Screen.
End AddSetDialog.

(** ** The Create Exercise screen ([CreateExerciseScreen]) *)

Module CreateExerciseScreen.

(** The data the form hands to [onSubmit]. *)
Record FormData : Type := mkData {
  name : string;
  category : option string;
  notes : option string
}.

(** [value || null] on an optional string. *)
Definition or_null (value : option string) : option string :=
  match value with
  | Some s => if String.eqb s "" then None else Some s
  | None => None
  end.

Section Screen.
Variable env : Env.
Variable view : State.
(** [String.prototype.toLowerCase], the host's. *)
Variable toLowerCase : string -> string.

Definition existingExercise (data : FormData) : option Exercise.t :=
  find (fun ex => String.eqb (toLowerCase (Exercise.name ex)) (toLowerCase (name data)))
       (exercises view).

Definition onSubmit (data : FormData) : M string :=
  try_catch (
    match existingExercise data with
    | Some _ => ret "Exercise with this name already exists"
    | None =>
        let* newExercise :=
          DataContext.createExercise env view {|
            ExerciseData.name := JSString.trim (name data);
            ExerciseData.category := or_null (category data);
            ExerciseData.notes := or_null (option_map JSString.trim (notes data))
          |} in
        ret "Exercise created successfully!"
    end)
  (fun error => console_error "Create exercise error:" >> ret "Failed to create exercise").

End Screen.
End CreateExerciseScreen.

(** ** Notions for the further properties *)

(** The remote calls of a trace, in order. *)
Definition remote_calls (t : list event) : list remote_call :=
  omap (fun e => match e with Remote c => Some c | _ => None end) t.

(** The messages of [console.error], in order. *)
Definition logs (t : list event) : list string :=
  omap (fun e => match e with ConsoleError msg => Some msg | _ => None end) t.

(** The sets the store lists for a workout, none when the listing fails. *)
Definition listed_sets (env : Env) (workout : Workout.t) : list SetWithExercise.t :=
  match select_sets env (Workout.id workout) with
  | Ok data => Supabase.or_empty data
  | Failed _ => []
  end.

(** ** More sample hosts *)

Module Scenario.

(** Nobody is signed in. *)
Definition signed_out : Env :=
  mkEnv None (today Sample.env) (select_exercises Sample.env) (insert_exercise Sample.env)
        (archive_exercise Sample.env) (select_workout Sample.env) (insert_workout Sample.env)
        (select_workouts Sample.env) (select_sets Sample.env) (insert_set Sample.env)
        (delete_set Sample.env) (select_export Sample.env) (storage_ok Sample.env)
        (localeCompare Sample.env).

(** The store is unreachable: every query fails. *)
Definition offline : Env :=
  mkEnv (auth_user Sample.env) (today Sample.env)
        (fun _ => Failed Sample.server_error) (fun _ _ => Failed Sample.server_error)
        (fun _ => Failed Sample.server_error) (fun _ _ => Failed Sample.server_error)
        (fun _ _ _ => Failed Sample.server_error) (fun _ _ _ => Failed Sample.server_error)
        (fun _ => Failed Sample.server_error) (fun _ => Failed Sample.server_error)
        (fun _ => Failed Sample.server_error) (fun _ => Failed Sample.server_error)
        (storage_ok Sample.env) (localeCompare Sample.env).

(** AsyncStorage refuses every access. *)
Definition broken_storage : Env :=
  mkEnv (auth_user Sample.env) (today Sample.env) (select_exercises Sample.env)
        (insert_exercise Sample.env) (archive_exercise Sample.env) (select_workout Sample.env)
        (insert_workout Sample.env) (select_workouts Sample.env) (select_sets Sample.env)
        (insert_set Sample.env) (delete_set Sample.env) (select_export Sample.env) false
        (localeCompare Sample.env).

(** An account with nothing in it yet. *)
Definition empty_account : Env :=
  mkEnv (auth_user Sample.env) (today Sample.env) (fun _ => Ok (Some []))
        (insert_exercise Sample.env) (archive_exercise Sample.env)
        (fun _ _ => Failed Sample.no_rows) (insert_workout Sample.env)
        (fun _ _ _ => Ok (Some [])) (fun _ => Ok (Some [])) (insert_set Sample.env)
        (delete_set Sample.env) (fun _ => Ok None) (storage_ok Sample.env)
        (localeCompare Sample.env).

(** U+00A0 NO-BREAK SPACE, which the keyboard of a phone may enter. *)
Definition no_break_space : string :=
  String (ascii_of_nat 194) (String (ascii_of_nat 160) "").

(** An account whose export holds one workout of two sets of squats, the
    first logged with a weight of 0 and the second with none. *)
Definition zero_weight : Env :=
  mkEnv (auth_user Sample.env) (today Sample.env) (select_exercises Sample.env)
        (insert_exercise Sample.env) (archive_exercise Sample.env) (select_workout Sample.env)
        (insert_workout Sample.env) (select_workouts Sample.env) (select_sets Sample.env)
        (insert_set Sample.env) (delete_set Sample.env)
        (fun _ => Ok (Some [WorkoutWithSets.mk Sample.new_year
                              [Sample.a_set "s8" "e3" "Squats" 5 (Some (JS.Fin 0 0)) 0;
                               Sample.a_set "s9" "e3" "Squats" 6 None 1]]))
        (storage_ok Sample.env) (localeCompare Sample.env).

(** A state that differs from what the store holds: one stale exercise,
    no workout. *)
Definition stale : World :=
  mkWorld (mkState [Sample.squats] None [] true true) (Some [Sample.squats]).

End Scenario.


(** * Properties *)

(** ** Running an operation *)

Create HintDb ops.

#[local] Hint Unfold
  Supabase.getExercises Supabase.createExercise Supabase.deleteExercise
  Supabase.getTodaysWorkout Supabase.createWorkout Supabase.getWorkoutsByDateRange
  Supabase.getSetsForWorkout Supabase.createSet Supabase.deleteSet Supabase.exportData
  Supabase.rethrowing Supabase.getUser Supabase.query Supabase.data_or_throw
  DataContext.setExercises DataContext.setTodayWorkout DataContext.setTodaySets
  DataContext.setLoading DataContext.setSyncing DataContext.getItem DataContext.setItem
  console_error try_catch try_finally bind emit modify ret throw : ops.

(** Unfold the operation down to the answers of the host. *)
Ltac run_op := autounfold with ops; cbn.

(** Bring the recorded answers of the host into the hypotheses. *)
Ltac use_answers :=
  repeat match goal with
  | E : ?x = Ok _, H : context [?x] |- _ => rewrite E in H; cbn in H
  | E : ?x = Failed _, H : context [?x] |- _ => rewrite E in H; cbn in H
  | E : ?x = Some _, H : context [?x] |- _ => rewrite E in H; cbn in H
  | E : ?x = None, H : context [?x] |- _ => rewrite E in H; cbn in H
  | E : ?x = true, H : context [?x] |- _ => rewrite E in H; cbn in H
  | E : ?x = false, H : context [?x] |- _ => rewrite E in H; cbn in H
  end.

(** Close a case once every answer of the host is known. *)
Ltac settle :=
  repeat split; intros; simplify_eq; use_answers; simplify_eq; cbn;
  try congruence; auto 10.

(** Which of the events of a concrete trace a given event is. *)
Ltac inv_in H :=
  repeat (destruct H as [H|H]; [try discriminate H; try (injection H as H) | ]);
  try contradiction.

(** Ask the host for the next answer the operation is waiting for. *)
Ltac ask_host env :=
  match goal with
  | |- context [match auth_user env with _ => _ end] =>
      destruct (auth_user env) as [?user|] eqn:?
  | |- context [match storage_ok env with _ => _ end] =>
      destruct (storage_ok env) eqn:?
  | |- context [match select_exercises env ?u with _ => _ end] =>
      destruct (select_exercises env u) as [?data|?error] eqn:?
  | |- context [match select_workout env ?u ?d with _ => _ end] =>
      destruct (select_workout env u d) as [?workout|?error] eqn:?
  | |- context [match select_sets env ?i with _ => _ end] =>
      destruct (select_sets env i) as [[?sets|]|?error] eqn:?
  | |- context [match insert_exercise env ?u ?d with _ => _ end] =>
      destruct (insert_exercise env u d) as [?exercise|?error] eqn:?
  | |- context [match archive_exercise env ?i with _ => _ end] =>
      destruct (archive_exercise env i) as [[]|?error] eqn:?
  | |- context [(code ?e =? ?c)%string] =>
      destruct (code e =? c)%string eqn:?
  end; cbn.

(** ** Derived statistics *)

Lemma fold_left_reps (sets : list SetWithExercise.t) (a : Z) :
  fold_left (fun sum set => sum + SetWithExercise.reps set) sets a = a + sum_reps sets.
Proof.
  revert a. induction sets as [|s sets IH]; intros a; cbn.
  - lia.
  - rewrite IH. unfold sum_reps. cbn. lia.
Qed.

Lemma size_list_to_set_distinct (l : list string) :
  size (list_to_set l : gset string) = count_distinct l.
Proof.
  unfold count_distinct.
  rewrite <- (size_list_to_set (C := gset string) (remove_dups l)) by apply NoDup_remove_dups.
  f_equal. apply set_eq. intros x.
  rewrite !elem_of_list_to_set. symmetry. apply elem_of_remove_dups.
Qed.

(** C6. [getTodayStats()] returns the number of sets, the number of
    distinct [exercise_id] values and the sum of the reps of [todaySets];
    it emits no event (no remote call) and leaves the world as it is.  On
    the empty list it returns {0,0,0}; on three sets with reps 5, 8, 10
    over two distinct exercises it returns {3,2,23}. *)
Theorem getTodayStats_spec (view : State) (w : World) :
  DataContext.getTodayStats view w =
    mkRun [] w
      (Resolved (DataContext.mkStats
                   (length (todaySets view))
                   (count_distinct (map SetWithExercise.exercise_id (todaySets view)))
                   (sum_reps (todaySets view)))) /\
  (todaySets view = [] ->
   result (DataContext.getTodayStats view w) = Resolved (DataContext.mkStats 0 0 0)) /\
  (forall s1 s2 s3,
      todaySets view = [s1; s2; s3] ->
      SetWithExercise.reps s1 = 5 -> SetWithExercise.reps s2 = 8 ->
      SetWithExercise.reps s3 = 10 ->
      count_distinct (map SetWithExercise.exercise_id [s1; s2; s3]) = 2%nat ->
      result (DataContext.getTodayStats view w) = Resolved (DataContext.mkStats 3 2 23)).
Proof.
  assert (E : DataContext.getTodayStats view w =
    mkRun [] w
      (Resolved (DataContext.mkStats
                   (length (todaySets view))
                   (count_distinct (map SetWithExercise.exercise_id (todaySets view)))
                   (sum_reps (todaySets view))))).
  { unfold DataContext.getTodayStats, ret.
    rewrite fold_left_reps, size_list_to_set_distinct. reflexivity. }
  split; [exact E|]. rewrite E. split.
  - intros ->. reflexivity.
  - intros s1 s2 s3 -> H1 H2 H3 Hd. cbn [result]. rewrite Hd. unfold sum_reps. cbn.
    rewrite H1, H2, H3. reflexivity.
Qed.

Lemma getTodayStats_spec_witness :
  result (DataContext.getTodayStats
            (mkState [] None [Sample.a_set "s1" "e2" "Push-ups" 5 None 0;
                              Sample.a_set "s2" "e3" "Squats" 8 None 1;
                              Sample.a_set "s3" "e2" "Push-ups" 10 None 2] false false)
            Sample.fresh)
  = Resolved (DataContext.mkStats 3 2 23).
Proof.
  eapply (getTodayStats_spec _ Sample.fresh); reflexivity.
Defined.

(** ** Loading today's workout *)

(** C7. Running [loadTodayWorkout()] a second time against the same
    answers of the store leaves [todayWorkout] and [todaySets], and in fact
    the whole world, as the first run left them. *)
Theorem loadTodayWorkout_idempotent (env : Env) (w : World) :
  let first := DataContext.loadTodayWorkout env w in
  let second := DataContext.loadTodayWorkout env (world first) in
  todayWorkout (state (world second)) = todayWorkout (state (world first)) /\
  todaySets (state (world second)) = todaySets (state (world first)) /\
  world second = world first.
Proof.
  cbv zeta.
  assert (E : world (DataContext.loadTodayWorkout env
                       (world (DataContext.loadTodayWorkout env w)))
              = world (DataContext.loadTodayWorkout env w)).
  { unfold DataContext.loadTodayWorkout. run_op.
    destruct (auth_user env) as [user|]; cbn; [|reflexivity].
    destruct (select_workout env user (today env)) as [workout|error]; cbn.
    - destruct (select_sets env (Workout.id workout)) as [[sets|]|error]; reflexivity.
    - destruct (negb (code error =? "PGRST116")%string); reflexivity. }
  rewrite E. auto.
Qed.

(** C2, as the code has it.  [loadTodayWorkout()] never rejects.  A
    row-not-found answer is a valid absent result: nothing is logged,
    [todayWorkout] becomes absent and [todaySets] empty.  Any other failure
    of the fetch of the workout, or of the fetch of its sets, is caught
    inside: it is logged, [todaySets] is cleared, and the operation still
    resolves; [todayWorkout] keeps its value in the first case and is the
    fetched workout in the second. *)
Theorem loadTodayWorkout_swallows_errors (env : Env) (w : World) :
  let r := DataContext.loadTodayWorkout env w in
  result r = Resolved tt /\
  (forall user error,
      auth_user env = Some user ->
      select_workout env user (today env) = Failed error ->
      code error = "PGRST116" ->
      trace r = [Remote GetUser; Remote (SelectWorkout user (today env))] /\
      todayWorkout (state (world r)) = None /\
      todaySets (state (world r)) = []) /\
  (forall error,
      result (Supabase.getTodaysWorkout env w) = Rejected error ->
      In (ConsoleError "Error loading today workout:") (trace r) /\
      todaySets (state (world r)) = [] /\
      todayWorkout (state (world r)) = todayWorkout (state w)) /\
  (forall workout error,
      result (Supabase.getTodaysWorkout env w) = Resolved (Some workout) ->
      result (Supabase.getSetsForWorkout env (Workout.id workout) w) = Rejected error ->
      In (ConsoleError "Error loading today workout:") (trace r) /\
      todaySets (state (world r)) = [] /\
      todayWorkout (state (world r)) = Some workout).
Proof.
  cbv zeta. unfold DataContext.loadTodayWorkout. run_op.
  destruct (auth_user env) as [user|] eqn:Eu; cbn; [|settle].
  destruct (select_workout env user (today env)) as [workout|error] eqn:Ew; cbn.
  - destruct (select_sets env (Workout.id workout)) as [[sets|]|error] eqn:Es; cbn; settle.
  - destruct (String.eqb_spec (code error) "PGRST116") as [Hc|Hc]; cbn; settle.
Qed.

Lemma loadTodayWorkout_swallows_errors_witness :
  result (DataContext.loadTodayWorkout
            (Sample.with_select_workout (Failed Sample.no_rows) Sample.env) Sample.synced)
  = Resolved tt /\
  todayWorkout (state (world (DataContext.loadTodayWorkout
            (Sample.with_select_workout (Failed Sample.no_rows) Sample.env) Sample.synced)))
  = None /\
  todaySets (state (world (DataContext.loadTodayWorkout
            (Sample.with_select_workout (Failed Sample.server_error) Sample.env) Sample.synced)))
  = [].
Proof.
  split; [|split].
  - apply (loadTodayWorkout_swallows_errors
             (Sample.with_select_workout (Failed Sample.no_rows) Sample.env) Sample.synced).
  - eapply (loadTodayWorkout_swallows_errors
              (Sample.with_select_workout (Failed Sample.no_rows) Sample.env) Sample.synced);
      reflexivity.
  - eapply (proj1 (proj2 (proj2 (loadTodayWorkout_swallows_errors
              (Sample.with_select_workout (Failed Sample.server_error) Sample.env)
              Sample.synced)))).
    reflexivity.
Defined.

(** C2 as stated fails: the store answers the fetch of today's workout
    with an error other than row-not-found, [database.getTodaysWorkout()]
    rejects, and [loadTodayWorkout()] does not: its caller sees a resolved
    promise. *)
Lemma loadTodayWorkout_error_not_propagated :
  let env := Sample.with_select_workout (Failed Sample.server_error) Sample.env in
  result (Supabase.getTodaysWorkout env Sample.synced)
    = Rejected (StoreError Sample.server_error) /\
  ~ (exists error,
        result (DataContext.loadTodayWorkout env Sample.synced) = Rejected error).
Proof.
  split; [reflexivity|]. intros [error H]. discriminate H.
Qed.

(** ** Mutations that fail *)

(** C3, as the code has it.  When the remote call of a mutation fails the
    mutation rejects with that error.  [createExercise], [deleteExercise]
    and [deleteSet] then leave the world as it was; so does [addSet] when
    the creation of today's workout fails.  When the insertion of the set
    fails, [exercises] and [todaySets] are as before, and so is
    [todayWorkout] unless [addSet] had just created today's workout, which
    then stays in [todayWorkout]. *)
Theorem failed_mutation_state (env : Env) (view : State) (w : World) :
  (forall data error,
      result (Supabase.createExercise env data w) = Rejected error ->
      result (DataContext.createExercise env view data w) = Rejected error /\
      world (DataContext.createExercise env view data w) = w) /\
  (forall id error,
      result (Supabase.deleteExercise env id w) = Rejected error ->
      result (DataContext.deleteExercise env view id w) = Rejected error /\
      world (DataContext.deleteExercise env view id w) = w) /\
  (forall id error,
      result (Supabase.deleteSet env id w) = Rejected error ->
      result (DataContext.deleteSet env view id w) = Rejected error /\
      world (DataContext.deleteSet env view id w) = w) /\
  (forall exerciseId reps weight error,
      todayWorkout view = None ->
      result (Supabase.createWorkout env (today env) None w) = Rejected error ->
      result (DataContext.addSet env view exerciseId reps weight w) = Rejected error /\
      world (DataContext.addSet env view exerciseId reps weight w) = w) /\
  (forall exerciseId reps weight d error,
      let r := DataContext.addSet env view exerciseId reps weight w in
      In (Remote (InsertSet d)) (trace r) ->
      insert_set env d = Failed error ->
      result r = Rejected (StoreError error) /\
      exercises (state (world r)) = exercises (state w) /\
      todaySets (state (world r)) = todaySets (state w) /\
      storage (world r) = storage w /\
      match todayWorkout view with
      | Some _ => world r = w
      | None => exists workout,
          result (Supabase.createWorkout env (today env) None w) = Resolved workout /\
          todayWorkout (state (world r)) = Some workout
      end).
Proof.
  split; [|split; [|split; [|split]]].
  - intros data error. unfold DataContext.createExercise. run_op.
    destruct (auth_user env) as [user|] eqn:Eu; cbn; [|settle].
    destruct (insert_exercise env user data) eqn:Ei; cbn; settle.
  - intros id error. unfold DataContext.deleteExercise. run_op.
    destruct (archive_exercise env id) as [[]|] eqn:Ea; cbn; settle.
  - intros id error. unfold DataContext.deleteSet. run_op.
    destruct (delete_set env id) as [[]|] eqn:Ed; cbn; settle.
  - intros exerciseId reps weight error Hview. unfold DataContext.addSet.
    rewrite Hview. run_op.
    destruct (auth_user env) as [user|] eqn:Eu; cbn; [|settle].
    destruct (insert_workout env user (today env) None) eqn:Ei; cbn; settle.
  - intros exerciseId reps weight d error. cbv zeta. unfold DataContext.addSet. run_op.
    destruct (todayWorkout view) as [workout|]; cbn.
    + match goal with |- context [insert_set env ?d0] =>
        destruct (insert_set env d0) eqn:Es; cbn end;
        intros Hin Hd; inv_in Hin; settle.
    + destruct (auth_user env) as [user|] eqn:Eu; cbn; [|intros Hin; inv_in Hin].
      destruct (insert_workout env user (today env) None) as [workout|] eqn:Ei; cbn;
        [|intros Hin; inv_in Hin].
      match goal with |- context [insert_set env ?d0] =>
        destruct (insert_set env d0) eqn:Es; cbn end;
        intros Hin Hd; inv_in Hin; settle.
      all: eexists; split; reflexivity.
Qed.

Lemma failed_mutation_state_witness :
  let env := Sample.with_insert_set (Failed Sample.server_error) Sample.env in
  let r := DataContext.addSet env (state Sample.synced) "e2"
                              (JS.VNum (JS.Fin 10 0)) JS.VNull Sample.synced in
  result r = Rejected (StoreError Sample.server_error) /\
  todaySets (state (world r)) = todaySets (state Sample.synced) /\
  world r = Sample.synced.
Proof.
  cbv zeta.
  pose proof (proj2 (proj2 (proj2 (proj2
    (failed_mutation_state
       (Sample.with_insert_set (Failed Sample.server_error) Sample.env)
       (state Sample.synced) Sample.synced))))
    "e2" (JS.VNum (JS.Fin 10 0)) JS.VNull
    (SetData.mk "w1" "e2" (JS.Fin 10 0) None 2) Sample.server_error) as H.
  cbv zeta in H.
  destruct H as (Hr & _ & Hs & _ & Hw).
  - vm_compute. auto.
  - reflexivity.
  - split; [exact Hr|]. split; [exact Hs|exact Hw].
Defined.

(** C3 as stated fails for [addSet]: nothing is logged today, the creation
    of today's workout succeeds, the insertion of the set fails.  The
    operation rejects, and [todayWorkout] is no longer absent. *)
Lemma addSet_failure_keeps_created_workout :
  let env := Sample.with_insert_set (Failed Sample.server_error) Sample.env in
  let r := DataContext.addSet env (state Sample.fresh) "e2"
                              (JS.VNum (JS.Fin 10 0)) JS.VNull Sample.fresh in
  result r = Rejected (StoreError Sample.server_error) /\
  todayWorkout (state Sample.fresh) = None /\
  todayWorkout (state (world r)) = Some (Workout.mk "w-new" "u1" "2024-01-01" None) /\
  state (world r) <> state Sample.fresh.
Proof.
  vm_compute. repeat split. discriminate.
Qed.

(** ** Adding a set *)

(** [parseInt] leaves the integers 1..999 as they are. *)
Lemma parseInt_small_integer (z : Z) :
  1 <= z <= 999 -> JS.parseInt (JS.VNum (JS.Fin z 0)) = JS.Fin z 0.
Proof.
  intros Hz.
  assert (Hall : Forall (fun n : nat =>
                           JS.parseInt (JS.VNum (JS.Fin (Z.of_nat n) 0)) = JS.Fin (Z.of_nat n) 0)
                        (seq 1 999)).
  { apply (bool_decide_unpack _). vm_compute. exact I. }
  rewrite Forall_forall in Hall.
  specialize (Hall (Z.to_nat z)).
  rewrite Z2Nat.id in Hall by lia.
  apply Hall. apply elem_of_seq. lia.
Qed.

(** The binary64 value nearest to an integer above [2^53] is at least
    [2^53]. *)
Lemma round64_large (v : Z) :
  2 ^ 53 < v ->
  exists m x, JS.round64 v 1 = (m, x) /\ 0 <= x /\ 2 ^ 53 <= m * 2 ^ x.
Proof.
  intros Hv. unfold JS.round64, JS.floor_log2.
  destruct (Z.leb_spec 1 v) as [_|]; [|lia].
  rewrite Z.div_1_r.
  assert (Hl : 53 <= Z.log2 v).
  { change 53 with (Z.log2 (2 ^ 53)). apply Z.log2_le_mono. lia. }
  rewrite Z.max_l by lia.
  set (x := Z.log2 v - 52).
  destruct (Z.leb_spec 0 x) as [_|]; [|lia].
  rewrite Z.mul_1_l.
  eexists _, x. split; [reflexivity|]. split; [lia|].
  assert (Hx : 0 < 2 ^ x) by (apply Z.pow_pos_nonneg; lia).
  assert (Hq : 2 ^ 52 <= v / 2 ^ x).
  { apply Z.div_le_lower_bound; [exact Hx|].
    rewrite Z.mul_comm, <- Z.pow_add_r by lia.
    replace (52 + x) with (Z.log2 v) by lia.
    apply Z.log2_spec. lia. }
  assert (Hm : v / 2 ^ x <= JS.round_half_even (v / 2 ^ x) (v mod 2 ^ x) (2 ^ x)).
  { unfold JS.round_half_even.
    destruct (2 * (v mod 2 ^ x) ?= 2 ^ x); [destruct (Z.even _)| |]; lia. }
  assert (H2 : 2 ^ 1 <= 2 ^ x) by (apply Z.pow_le_mono_r; lia).
  change (2 ^ 53) with (2 ^ 52 * 2 ^ 1). nia.
Qed.

(** A number [parseInt] makes of an integer is in 1..999 only as that
    integer: the integers up to [2^53] are kept, and the others round to a
    value from [2^53] on or to an infinity. *)
Lemma of_integer_in_range (negative : bool) (v : Z) :
  JS.gt0 (JS.of_integer negative v) && JS.le_int (JS.of_integer negative v) 999 = true ->
  exists z, JS.of_integer negative v = JS.Fin z 0 /\ 1 <= z <= 999.
Proof.
  unfold JS.of_integer.
  destruct (Z.leb_spec v (2 ^ 53)) as [_|Hv].
  - intros Hr. apply andb_true_iff in Hr as [H1 H2].
    unfold JS.gt0 in H1. unfold JS.le_int in H2.
    change (10 ^ Z.of_nat 0) with 1 in H2.
    eexists. split; [reflexivity|]. lia.
  - destruct (round64_large v Hv) as (m & x & -> & Hx & Hm).
    unfold JS.of_binary.
    destruct (Z.leb_spec 0 x) as [_|]; [|lia].
    destruct (2 ^ 1024 <=? m * 2 ^ x).
    + destruct negative; discriminate.
    + unfold JS.gt0, JS.le_int, JS.signed.
      change (10 ^ Z.of_nat 0) with 1.
      assert (999 < 2 ^ 53) by reflexivity.
      destruct negative; intros Hr; apply andb_true_iff in Hr as [H1 H2]; lia.
Qed.

(** What [parseInt] answers is in 1..999 only as an integer. *)
Lemma parseInt_chars_in_range (s : list ascii) :
  JS.gt0 (JS.parseInt_chars s) && JS.le_int (JS.parseInt_chars s) 999 = true ->
  exists z, JS.parseInt_chars s = JS.Fin z 0 /\ 1 <= z <= 999.
Proof.
  unfold JS.parseInt_chars.
  destruct (JS.take_sign (JS.trim_start s)) as [negative s2].
  match goal with |- context [let '(radix, s3) := ?p in _] => destruct p as [radix s3] end.
  destruct (JS.digits_prefix radix s3); [discriminate|].
  apply of_integer_in_range.
Qed.

(** C4, as the code has it.  [addSet] does not validate its arguments: it
    coerces [reps] with [parseInt] and a truthy [weight] with [parseFloat],
    and its first step is a remote call whatever they are; with a workout
    for today that call is the insertion of the set, with the coerced
    values.  The constraints are those of the form schema of the Add Set
    screen, [setSchema]: the values it accepts give an integer in 1..999
    for reps, and null or a number in 0..9999 for weight. *)
Theorem validation_is_in_the_form (env : Env) (view : State) (w : World) :
  (forall exerciseId reps weight,
      exists c rest,
        trace (DataContext.addSet env view exerciseId reps weight w) = Remote c :: rest) /\
  (forall workout exerciseId reps weight,
      todayWorkout view = Some workout ->
      exists rest,
        trace (DataContext.addSet env view exerciseId reps weight w) =
          Remote (InsertSet {|
            SetData.workout_id := Workout.id workout;
            SetData.exercise_id := exerciseId;
            SetData.reps := JS.parseInt reps;
            SetData.weight :=
              if JS.ToBoolean weight then Some (JS.parseFloat weight) else None;
            SetData.order_index := Z.of_nat (length (todaySets view)) |}) :: rest) /\
  (forall values data,
      AddSetScreen.setSchema values = Some data ->
      (exists z, AddSetScreen.reps data = JS.Fin z 0 /\ 1 <= z <= 999) /\
      (AddSetScreen.weight data = None \/
       exists m e, AddSetScreen.weight data = Some (JS.Fin m e) /\
                   0 <= m <= 9999 * 10 ^ Z.of_nat e)).
Proof.
  split; [|split].
  - intros exerciseId reps weight. unfold DataContext.addSet. run_op.
    destruct (todayWorkout view) as [workout|]; cbn.
    + match goal with |- context [insert_set env ?d0] =>
        destruct (insert_set env d0); cbn end; eauto.
    + destruct (auth_user env) as [user|]; cbn; [|eauto].
      destruct (insert_workout env user (today env) None); cbn; [|eauto].
      match goal with |- context [insert_set env ?d0] =>
        destruct (insert_set env d0); cbn end; eauto.
  - intros workout exerciseId reps weight Hview. unfold DataContext.addSet.
    rewrite Hview. run_op.
    assert (Hw : (if JS.ToBoolean match weight with
                                  | JS.VUndefined => JS.VNull
                                  | _ => weight
                                  end
                  then Some (JS.parseFloat match weight with
                                           | JS.VUndefined => JS.VNull
                                           | _ => weight
                                           end)
                  else None)
                 = (if JS.ToBoolean weight then Some (JS.parseFloat weight) else None))
      by (destruct weight; reflexivity).
    rewrite Hw.
    match goal with |- context [insert_set env ?d0] =>
      destruct (insert_set env d0); cbn end; eauto.
  - intros [rv wv] [r wt]. unfold AddSetScreen.setSchema. cbn.
    destruct (AddSetScreen.reps_schema rv) as [r'|] eqn:Er; [|discriminate].
    destruct (AddSetScreen.weight_schema wv) as [w'|] eqn:Ew; [|discriminate].
    intros [= -> ->]. split.
    + destruct rv as [| |x|s]; try discriminate. unfold AddSetScreen.reps_schema in Er.
      destruct (1 <=? String.length s)%nat; [|discriminate].
      unfold JS.parseInt in Er.
      match type of Er with (if ?b then _ else _) = _ =>
        destruct b eqn:Eb; [|discriminate] end.
      injection Er as <-. apply parseInt_chars_in_range. exact Eb.
    + assert (Href : forall val, AddSetScreen.weight_refine val = Some wt ->
                wt = None \/
                exists m e, wt = Some (JS.Fin m e) /\ 0 <= m <= 9999 * 10 ^ Z.of_nat e).
      { intros [x|]; cbn; [|intros [= <-]; auto].
        destruct x as [|negative|m e]; cbn; try discriminate.
        - destruct negative; discriminate.
        - destruct (0 <=? m) eqn:E1; [|discriminate].
          destruct (m <=? 9999 * 10 ^ Z.of_nat e) eqn:E2; [|discriminate].
          intros [= <-]. right. exists m, e. split; [reflexivity|lia]. }
      destruct wv as [| |x|s]; try discriminate; cbn in Ew; eapply Href; exact Ew.
Qed.

Lemma validation_is_in_the_form_witness :
  AddSetScreen.setSchema (AddSetScreen.mkForm (JS.VStr "10") (JS.VStr "22.5"))
  = Some (AddSetScreen.mkData (JS.Fin 10 0) (Some (JS.Fin 225 1))) /\
  (exists z, JS.Fin 10 0 = JS.Fin z 0 /\ 1 <= z <= 999) /\
  (exists rest,
      trace (DataContext.addSet Sample.env (state Sample.synced) "e2"
               (JS.VStr "12345678901234567890") (JS.VStr "0.1") Sample.synced) =
        Remote (InsertSet (SetData.mk "w1" "e2"
                  (JS.Fin 12345678901234567168 0)
                  (Some (JS.Fin 1000000000000000055511151231257827021181583404541015625 55))
                  2)) :: rest).
Proof.
  split; [vm_compute; reflexivity|]. split.
  - apply (proj2 (proj2 (validation_is_in_the_form Sample.env (state Sample.synced)
             Sample.synced))
             (AddSetScreen.mkForm (JS.VStr "10") (JS.VStr "22.5"))
             (AddSetScreen.mkData (JS.Fin 10 0) (Some (JS.Fin 225 1)))).
    vm_compute. reflexivity.
  - destruct (proj1 (proj2 (validation_is_in_the_form Sample.env (state Sample.synced)
                Sample.synced))
                Sample.new_year "e2" (JS.VStr "12345678901234567890") (JS.VStr "0.1")
                eq_refl) as [rest H].
    exists rest. rewrite H. vm_compute. reflexivity.
Defined.

(** C4 as stated fails: [addSet] called with reps 0 and weight -5, which
    the constraints exclude, sends the insertion of the set to the store
    with these values, and resolves. *)
Lemma addSet_sends_invalid_input :
  let r := DataContext.addSet Sample.env (state Sample.synced) "e2"
             (JS.VNum (JS.Fin 0 0)) (JS.VNum (JS.Fin (-5) 0)) Sample.synced in
  JS.gt0 (JS.Fin 0 0) = false /\
  JS.ge0 (JS.Fin (-5) 0) = false /\
  trace r = [Remote (InsertSet (SetData.mk "w1" "e2" (JS.Fin 0 0) (Some (JS.Fin (-5) 0)) 2))] /\
  result r = Resolved (Set_.mk "s-new" "w1" "e2" 0 (Some (JS.Fin (-5) 0)) 2).
Proof.
  vm_compute. repeat split.
Qed.

(** C5. From a state whose [todaySets] has length [n], with reps an
    integer in 1..999 and weight absent or in 0..9999, against a store
    that answers an insert with the inserted row: when [addSet] resolves,
    [todaySets] is the prior list followed by exactly one entry, the set
    the store returned joined with the display name of its exercise; the
    request carried [order_index = n] and the given reps, and so does the
    created set. *)
Theorem addSet_appends_one_set
        (env : Env) (w : World) (exerciseId : string) (reps weight : JS.value)
        (newSet : Set_.t) :
  valid_reps reps ->
  valid_weight weight ->
  store_returns_inserted_set env ->
  let r := DataContext.addSet env (state w) exerciseId reps weight w in
  let n := length (todaySets (state w)) in
  result r = Resolved newSet ->
  todaySets (state (world r)) =
    todaySets (state w) ++
    [SetWithExercise.mk newSet
       (Some (DataContext.display_name
                (find (fun ex => String.eqb (Exercise.id ex) exerciseId)
                      (exercises (state w)))))] /\
  length (todaySets (state (world r))) = S n /\
  take n (todaySets (state (world r))) = todaySets (state w) /\
  exercises (state (world r)) = exercises (state w) /\
  (exists d, In (Remote (InsertSet d)) (trace r) /\
             SetData.order_index d = Z.of_nat n /\
             JS.VNum (SetData.reps d) = reps) /\
  Set_.order_index newSet = Z.of_nat n /\
  JS.VNum (JS.of_Z (Set_.reps newSet)) = reps.
Proof.
  intros (z & -> & Hz) _ Hstore. cbv zeta.
  assert (Happ : forall (l : list SetWithExercise.t) x,
             length (l ++ [x]) = S (length l) /\ take (length l) (l ++ [x]) = l).
  { intros l x. split.
    - rewrite length_app. cbn. lia.
    - rewrite take_app_length. reflexivity. }
  unfold DataContext.addSet. run_op.
  rewrite (parseInt_small_integer z Hz).
  destruct (todayWorkout (state w)) as [workout|]; cbn.
  - match goal with |- context [insert_set env ?d0] =>
      destruct (insert_set env d0) as [row|] eqn:Es; cbn end; [|discriminate].
    intros [= <-]. destruct (Hstore _ _ Es) as (_ & _ & Hr & _ & Ho). cbn in Hr, Ho.
    destruct (Happ (todaySets (state w))
                (SetWithExercise.mk row
                   (Some (DataContext.display_name
                            (find (fun ex => String.eqb (Exercise.id ex) exerciseId)
                                  (exercises (state w))))))) as [Hl Ht].
    repeat split; try assumption; try congruence.
    eexists. split; [left; reflexivity|]. split; reflexivity.
  - destruct (auth_user env) as [user|]; cbn; [|discriminate].
    destruct (insert_workout env user (today env) None) as [workout|]; cbn; [|discriminate].
    match goal with |- context [insert_set env ?d0] =>
      destruct (insert_set env d0) as [row|] eqn:Es; cbn end; [|discriminate].
    intros [= <-]. destruct (Hstore _ _ Es) as (_ & _ & Hr & _ & Ho). cbn in Hr, Ho.
    destruct (Happ (todaySets (state w))
                (SetWithExercise.mk row
                   (Some (DataContext.display_name
                            (find (fun ex => String.eqb (Exercise.id ex) exerciseId)
                                  (exercises (state w))))))) as [Hl Ht].
    repeat split; try assumption; try congruence.
    eexists. split; [right; right; left; reflexivity|]. split; reflexivity.
Qed.

Lemma sample_store_returns_inserted_set : store_returns_inserted_set Sample.env.
Proof.
  intros d row. cbn. unfold Sample.inserted_set.
  destruct (SetData.reps d) as [| |m [|e]] eqn:E; try discriminate.
  intros [= <-]. cbn. auto.
Qed.

Lemma addSet_appends_one_set_witness :
  let r := DataContext.addSet Sample.env (state Sample.synced) "e2"
             (JS.VNum (JS.Fin 12 0)) (JS.VNum (JS.Fin 225 1)) Sample.synced in
  result r = Resolved (Set_.mk "s-new" "w1" "e2" 12 (Some (JS.Fin 225 1)) 2) /\
  length (todaySets (state (world r))) = 3%nat /\
  Set_.order_index (Set_.mk "s-new" "w1" "e2" 12 (Some (JS.Fin 225 1)) 2) = 2.
Proof.
  cbv zeta.
  assert (Hr : valid_reps (JS.VNum (JS.Fin 12 0))).
  { exists 12. split; [reflexivity|lia]. }
  assert (Hw : valid_weight (JS.VNum (JS.Fin 225 1))).
  { right. right. exists 225, 1%nat. split; [reflexivity|]. cbn. lia. }
  destruct (addSet_appends_one_set Sample.env Sample.synced "e2"
              (JS.VNum (JS.Fin 12 0)) (JS.VNum (JS.Fin 225 1))
              (Set_.mk "s-new" "w1" "e2" 12 (Some (JS.Fin 225 1)) 2)
              Hr Hw sample_store_returns_inserted_set eq_refl)
    as (_ & Hl & _ & _ & _ & Ho & _).
  split; [reflexivity|]. split; [exact Hl|exact Ho].
Defined.

(** ** Deleting an exercise *)

(** C9. When [deleteExercise(id)] resolves, [exercises] is the prior list
    without the entries whose id is [id]: the other entries are all there,
    unchanged and in their order; [todayWorkout] and [todaySets] are left
    as they were, also the sets of [todaySets] that reference the deleted
    exercise. *)
Theorem deleteExercise_removes_only_the_exercise
        (env : Env) (w : World) (exerciseId : string) :
  let r := DataContext.deleteExercise env (state w) exerciseId w in
  result r = Resolved tt ->
  exercises (state (world r)) =
    filter (fun ex => Exercise.id ex ≠ exerciseId) (exercises (state w)) /\
  (forall ex, ex ∈ exercises (state (world r)) <->
              ex ∈ exercises (state w) /\ Exercise.id ex ≠ exerciseId) /\
  exercises (state (world r)) `sublist_of` exercises (state w) /\
  todayWorkout (state (world r)) = todayWorkout (state w) /\
  todaySets (state (world r)) = todaySets (state w) /\
  filter (fun s => SetWithExercise.exercise_id s = exerciseId) (todaySets (state (world r)))
  = filter (fun s => SetWithExercise.exercise_id s = exerciseId) (todaySets (state w)).
Proof.
  cbv zeta. unfold DataContext.deleteExercise. run_op.
  destruct (archive_exercise env exerciseId) as [[]|]; cbn; [|discriminate].
  destruct (storage_ok env); cbn; [|discriminate].
  intros _. split; [reflexivity|]. split; [|split; [|auto]].
  - intros ex. rewrite list_elem_of_filter. tauto.
  - apply sublist_filter.
Qed.

Lemma deleteExercise_removes_only_the_exercise_witness :
  let r := DataContext.deleteExercise Sample.env (state Sample.synced) "e2" Sample.synced in
  exercises (state (world r)) = [Sample.squats] /\
  todaySets (state (world r)) = [Sample.push_ups_10; Sample.squats_5].
Proof.
  cbv zeta.
  destruct (deleteExercise_removes_only_the_exercise Sample.env Sample.synced "e2" eq_refl)
    as (He & _ & _ & _ & Hs & _).
  split; [exact He|exact Hs].
Defined.

(** ** The export *)

Lemma all_rows_map_Some (rows : list string) :
  DataContext.all_rows (map Some rows) = Some rows.
Proof.
  induction rows as [|r rows IH]; cbn; [reflexivity|]. rewrite IH. reflexivity.
Qed.

Lemma all_rows_Some (l : list (option string)) (rows : list string) :
  DataContext.all_rows l = Some rows -> l = map Some rows.
Proof.
  revert rows. induction l as [|[r|] l IH]; intros rows; cbn.
  - intros [= <-]. reflexivity.
  - destruct (DataContext.all_rows l) as [l'|]; [|discriminate].
    intros [= <-]. cbn. f_equal. apply IH. reflexivity.
  - discriminate.
Qed.

Lemma rows_before_length (before : list WorkoutWithSets.t) :
  length (concat (map (fun workout =>
                         imap (DataContext.csv_row workout) (WorkoutWithSets.sets workout))
                      before))
  = length (concat (map WorkoutWithSets.sets before)).
Proof.
  induction before as [|workout before IH]; cbn; [reflexivity|].
  rewrite !length_app, length_imap, IH. reflexivity.
Qed.

Lemma filter_all {A} (P : A -> Prop) `{forall x, Decision (P x)} (l : list A) :
  (forall x, x ∈ l -> P x) -> filter P l = l.
Proof.
  induction l as [|x l IH]; intros Hall; [reflexivity|].
  rewrite filter_cons_True by (apply Hall; left).
  f_equal. apply IH. intros y Hy. apply Hall. right. exact Hy.
Qed.

Lemma filter_keeps_all {A} (P : A -> Prop) `{forall x, Decision (P x)} (l : list A) :
  length (filter P l) = length l -> forall x, x ∈ l -> P x.
Proof.
  induction l as [|y l IH]; intros Hlen x Hx; [inversion Hx|].
  rewrite filter_cons in Hlen. destruct (decide (P y)) as [Hy|Hy].
  - cbn in Hlen. apply elem_of_cons in Hx as [->|Hx]; [exact Hy|].
    apply IH; [lia|exact Hx].
  - pose proof (length_filter P l). cbn in Hlen. lia.
Qed.

(** The export has one row per set, in the order of the data: the row of
    the set at [index] of a workout comes after the header and the rows of
    the sets of the workouts before. *)
Lemma csvRows_lookup (before after : list WorkoutWithSets.t) (workout : WorkoutWithSets.t)
      (index : nat) (set : SetWithExercise.t) (rows : list string) :
  DataContext.csvRows (before ++ workout :: after) = Some rows ->
  WorkoutWithSets.sets workout !! index = Some set ->
  exists row,
    DataContext.csv_row workout index set = Some row /\
    rows !! (1 + length (concat (map WorkoutWithSets.sets before)) + index)%nat = Some row.
Proof.
  intros Hrows Hset. unfold DataContext.csvRows in Hrows.
  destruct (DataContext.all_rows _) as [rows'|] eqn:Hall; [|discriminate].
  injection Hrows as <-. apply all_rows_Some in Hall.
  rewrite map_app, concat_app in Hall. cbn [map concat] in Hall.
  assert (Hrow : map Some rows' !! (length (concat (map WorkoutWithSets.sets before)) + index)%nat
                 = Some (DataContext.csv_row workout index set)).
  { rewrite <- Hall, <- rows_before_length.
    rewrite lookup_app_r by lia.
    replace (_ + index - _)%nat with index by lia.
    rewrite lookup_app_l.
    - rewrite list_lookup_imap, Hset. reflexivity.
    - rewrite length_imap. eapply lookup_lt_Some. exact Hset. }
  rewrite list_lookup_fmap in Hrow.
  destruct (rows' !! _) as [row|] eqn:Hr; [|discriminate]. cbn in Hrow.
  injection Hrow as Hrow. exists row. split; [congruence|].
  cbn [Nat.add]. cbn [lookup list_lookup]. exact Hr.
Qed.

(** C1, as the code has it.  In the export, the row of the set at index
    [index] of a workout carries [index + 1] in its "Set" field: the
    1-based position of the set in the list of sets of its workout,
    whatever the exercises of the other sets.  That number is the position
    of the set within its exercise group exactly when the earlier sets of
    the workout all belong to the exercise of the set, as in a workout of a
    single exercise. *)
Theorem export_set_number_is_position_in_workout
        (before after : list WorkoutWithSets.t) (workout : WorkoutWithSets.t)
        (index : nat) (set : SetWithExercise.t) (rows : list string) :
  DataContext.csvRows (before ++ workout :: after) = Some rows ->
  WorkoutWithSets.sets workout !! index = Some set ->
  exists name,
    SetWithExercise.exercise set = Some name /\
    rows !! (1 + length (concat (map WorkoutWithSets.sets before)) + index)%nat =
      Some (WorkoutWithSets.date workout +:+ "," +:+ name +:+ "," +:+
            JS.ToString (JS.VNum (JS.of_nat (index + 1))) +:+ "," +:+
            JS.ToString (JS.VNum (JS.of_Z (SetWithExercise.reps set))) +:+ "," +:+
            DataContext.weight_field (SetWithExercise.weight set)) /\
    (position_in_exercise_group (WorkoutWithSets.sets workout) index = (index + 1)%nat <->
     forall s, s ∈ take index (WorkoutWithSets.sets workout) ->
               SetWithExercise.exercise_id s = SetWithExercise.exercise_id set).
Proof.
  intros Hrows Hset.
  destruct (csvRows_lookup _ _ _ _ _ _ Hrows Hset) as (row & Hrow & Hr).
  unfold DataContext.csv_row in Hrow.
  destruct (SetWithExercise.exercise set) as [name|]; [|discriminate].
  injection Hrow as <-. exists name. split; [reflexivity|]. split; [exact Hr|].
  assert (Hlen : length (take index (WorkoutWithSets.sets workout)) = index).
  { apply length_take_le. apply lookup_lt_Some in Hset. lia. }
  unfold position_in_exercise_group. rewrite Hset. split.
  - intros Hpos.
    apply (filter_keeps_all
             (fun s => SetWithExercise.exercise_id s = SetWithExercise.exercise_id set)).
    lia.
  - intros Hsame. rewrite filter_all by exact Hsame. lia.
Qed.

Lemma export_set_number_is_position_in_workout_witness :
  exists name,
    SetWithExercise.exercise Sample.push_ups_8 = Some name /\
    ["Date,Exercise,Set,Reps,Weight"; "2024-01-01,Push-ups,1,10,";
     "2024-01-01,Squats,2,5,"; "2024-01-01,Push-ups,3,8,20"] !! 3%nat =
      Some ("2024-01-01" +:+ "," +:+ name +:+ "," +:+
            JS.ToString (JS.VNum (JS.of_nat (2 + 1))) +:+ "," +:+
            JS.ToString (JS.VNum (JS.of_Z 8)) +:+ "," +:+
            DataContext.weight_field (Some (JS.Fin 20 0))) /\
    position_in_exercise_group [Sample.push_ups_10; Sample.squats_5; Sample.push_ups_8] 2
    <> 3%nat.
Proof.
  destruct (export_set_number_is_position_in_workout
              [] [] (WorkoutWithSets.mk Sample.new_year
                       [Sample.push_ups_10; Sample.squats_5; Sample.push_ups_8])
              2 Sample.push_ups_8
              ["Date,Exercise,Set,Reps,Weight"; "2024-01-01,Push-ups,1,10,";
               "2024-01-01,Squats,2,5,"; "2024-01-01,Push-ups,3,8,20"])
    as (name & Hn & Hrow & Hiff); [vm_compute; reflexivity|reflexivity|].
  exists name. split; [exact Hn|]. split; [exact Hrow|].
  intros Hpos. pose proof (proj1 Hiff Hpos Sample.squats_5) as Hsame.
  discriminate Hsame. cbn. right. left.
Defined.

(** C1 as stated fails: a workout with the sets Push-ups, Squats, Push-ups.
    The rows of the export are numbered 1, 2, 3, while the Squats set is
    the first of its exercise group and the second Push-ups set the second
    of its group. *)
Lemma export_numbers_across_exercise_groups :
  let sets := [Sample.push_ups_10; Sample.squats_5; Sample.push_ups_8] in
  result (DataContext.exportData Sample.env Sample.synced) =
    Resolved ("Date,Exercise,Set,Reps,Weight" +:+ newline +:+
              "2024-01-01,Push-ups,1,10," +:+ newline +:+
              "2024-01-01,Squats,2,5," +:+ newline +:+
              "2024-01-01,Push-ups,3,8,20") /\
  position_in_exercise_group sets 1 = 1%nat /\
  position_in_exercise_group sets 2 = 2%nat.
Proof.
  vm_compute. auto.
Qed.

Lemma csv_row_without_weight (workout workout' : WorkoutWithSets.t) (index : nat)
      (set : SetWithExercise.t) :
  WorkoutWithSets.workout workout' = WorkoutWithSets.workout workout ->
  DataContext.csv_row workout' index
    (if falsy_weight (SetWithExercise.weight set) then without_weight set else set)
  = DataContext.csv_row workout index set.
Proof.
  intros Hw. unfold DataContext.csv_row, WorkoutWithSets.date. rewrite Hw.
  destruct (falsy_weight (SetWithExercise.weight set)) eqn:Hf; [|reflexivity].
  destruct set as [[id wid eid reps weight oi] exercise]. cbn in *.
  destruct exercise as [name|]; [|reflexivity].
  destruct weight as [x|]; [|reflexivity]. cbn in Hf.
  unfold DataContext.weight_field, SetWithExercise.weight. cbn.
  destruct (JS.truthy x); [discriminate|reflexivity].
Qed.

Lemma csvRows_erase_falsy_weights (data : list WorkoutWithSets.t) :
  DataContext.csvRows (erase_falsy_weights data) = DataContext.csvRows data.
Proof.
  unfold DataContext.csvRows, erase_falsy_weights.
  rewrite map_map. cbn [WorkoutWithSets.sets].
  replace (map (fun x : WorkoutWithSets.t => imap _ _) data)
    with (map (fun workout => imap (DataContext.csv_row workout)
                                   (WorkoutWithSets.sets workout)) data);
    [reflexivity|].
  apply map_ext. intros workout.
  change (map ?f ?l) with (f <$> l). rewrite imap_fmap.
  apply imap_ext. intros index set _. cbn.
  symmetry. apply csv_row_without_weight. reflexivity.
Qed.

(** C10. When [exportData()] resolves, the line of a set whose weight is
    falsy, a weight of 0 in particular, is the date, the name of the
    exercise, the number of the set and the reps followed by an empty
    "Weight" field, as for a set without weight; and the export of the
    same data with the falsy weights replaced by null is the same run,
    with the same text: the two cannot be told apart. *)
Theorem zero_weight_exports_as_absent
        (env : Env) (w : World) (user : string) (listing : option (list WorkoutWithSets.t))
        (before after : list WorkoutWithSets.t) (workout : WorkoutWithSets.t)
        (index : nat) (set : SetWithExercise.t) (text : string) :
  auth_user env = Some user ->
  select_export env user = Ok listing ->
  Supabase.or_empty listing = before ++ workout :: after ->
  WorkoutWithSets.sets workout !! index = Some set ->
  falsy_weight (SetWithExercise.weight set) = true ->
  result (DataContext.exportData env w) = Resolved text ->
  (forall e, falsy_weight (Some (JS.Fin 0 e)) = true) /\
  (exists name lines,
      SetWithExercise.exercise set = Some name /\
      text = String.concat newline lines /\
      length lines = S (length (concat (map WorkoutWithSets.sets (before ++ workout :: after)))) /\
      lines !! (1 + length (concat (map WorkoutWithSets.sets before)) + index)%nat =
        Some (WorkoutWithSets.date workout +:+ "," +:+ name +:+ "," +:+
              JS.ToString (JS.VNum (JS.of_nat (index + 1))) +:+ "," +:+
              JS.ToString (JS.VNum (JS.of_Z (SetWithExercise.reps set))) +:+ "," +:+
              "")) /\
  (forall env',
      auth_user env' = Some user ->
      select_export env' user = Ok (Some (erase_falsy_weights (before ++ workout :: after))) ->
      DataContext.exportData env' w = DataContext.exportData env w).
Proof.
  intros Hu Hl Hdata Hset Hfalsy Htext.
  split; [reflexivity|].
  unfold DataContext.exportData in *. revert Htext. run_op.
  rewrite Hu. cbn. rewrite Hl. cbn. rewrite Hdata.
  destruct (DataContext.csvRows (before ++ workout :: after)) as [rows|] eqn:Hrows; cbn;
    [|discriminate].
  intros [= <-]. split.
  - destruct (csvRows_lookup _ _ _ _ _ _ Hrows Hset) as (row & Hrow & Hr).
    unfold DataContext.csv_row in Hrow.
    destruct (SetWithExercise.exercise set) as [name|]; [|discriminate].
    injection Hrow as <-. exists name, rows.
    split; [reflexivity|]. split; [reflexivity|]. split.
    + unfold DataContext.csvRows in Hrows.
      destruct (DataContext.all_rows _) as [body|] eqn:Hall; [|discriminate].
      injection Hrows as <-. apply all_rows_Some in Hall.
      cbn [length]. f_equal. rewrite <- rows_before_length, Hall, length_map. reflexivity.
    + assert (Hfield : DataContext.weight_field (SetWithExercise.weight set) = "").
      { destruct (SetWithExercise.weight set) as [x|]; [|reflexivity].
        cbn in Hfalsy |- *. destruct (JS.truthy x); [discriminate|reflexivity]. }
      rewrite Hfield in Hr. exact Hr.
  - intros env' Hu' Hl'. rewrite Hu'. cbn. rewrite Hl'. cbn.
    rewrite csvRows_erase_falsy_weights, Hrows. reflexivity.
Qed.

Lemma zero_weight_exports_as_absent_witness :
  result (DataContext.exportData Scenario.zero_weight Sample.synced) =
    Resolved ("Date,Exercise,Set,Reps,Weight" +:+ newline +:+
              "2024-01-01,Squats,1,5," +:+ newline +:+
              "2024-01-01,Squats,2,6,") /\
  exists name lines,
    Some "Squats" = Some name /\
    length lines = 3%nat /\
    lines !! 1%nat = Some ("2024-01-01" +:+ "," +:+ name +:+ "," +:+
                           JS.ToString (JS.VNum (JS.of_nat (0 + 1))) +:+ "," +:+
                           JS.ToString (JS.VNum (JS.of_Z 5)) +:+ "," +:+ "").
Proof.
  split; [vm_compute; reflexivity|].
  destruct (zero_weight_exports_as_absent Scenario.zero_weight Sample.synced "u1"
              (Some [WorkoutWithSets.mk Sample.new_year
                       [Sample.a_set "s8" "e3" "Squats" 5 (Some (JS.Fin 0 0)) 0;
                        Sample.a_set "s9" "e3" "Squats" 6 None 1]])
              [] []
              (WorkoutWithSets.mk Sample.new_year
                 [Sample.a_set "s8" "e3" "Squats" 5 (Some (JS.Fin 0 0)) 0;
                  Sample.a_set "s9" "e3" "Squats" 6 None 1])
              0%nat (Sample.a_set "s8" "e3" "Squats" 5 (Some (JS.Fin 0 0)) 0)
              ("Date,Exercise,Set,Reps,Weight" +:+ newline +:+
               "2024-01-01,Squats,1,5," +:+ newline +:+
               "2024-01-01,Squats,2,6,")
              eq_refl eq_refl eq_refl eq_refl eq_refl)
    as (_ & (name & lines & Hn & _ & Hlen & Hline) & _); [vm_compute; reflexivity|].
  exists name, lines. split; [exact Hn|]. split; [exact Hlen|exact Hline].
Defined.

(** ** The exercises stay sorted by name *)

Section SortLemmas.
Context {A : Type} (cmp : A -> A -> Z).
Hypothesis consistent : consistent_comparator cmp.

#[local] Abbreviation le := (not_above cmp).

Lemma le_total (a b : A) : le a b \/ le b a.
Proof.
  unfold le. destruct (Z_le_gt_dec (cmp a b) 0) as [H|H]; [auto|].
  right. assert (0 < cmp a b) as H' by lia.
  apply (cmp_antisym cmp consistent) in H'. lia.
Qed.

Lemma insert_head (x y : A) (l : list A) :
  le x y -> JS.insert cmp x (y :: l) = x :: y :: l.
Proof.
  unfold le. intros H. cbn. destruct (0 <? cmp x y) eqn:E; [lia|reflexivity].
Qed.

Lemma insert_Sorted (x : A) (l : list A) :
  Sorted le l -> Sorted le (JS.insert cmp x l).
Proof.
  induction 1 as [|y l Hs IH Hhd]; cbn.
  - repeat constructor.
  - destruct (0 <? cmp x y) eqn:E.
    + constructor; [exact IH|].
      assert (le y x) as Hyx.
      { destruct (le_total x y) as [H|H]; [unfold le in H; lia|exact H]. }
      destruct l as [|z l]; cbn.
      * constructor. exact Hyx.
      * destruct (0 <? cmp x z); constructor; [|exact Hyx].
        inversion Hhd; assumption.
    + constructor; [constructor; assumption|]. constructor. unfold le. lia.
Qed.

Lemma sort_Sorted (l : list A) : Sorted le (JS.sort cmp l).
Proof.
  induction l as [|x l IH]; cbn; [constructor|]. apply insert_Sorted, IH.
Qed.

(** Sorting a sorted list with one element appended puts that element
    after the elements that do not sort after it and before the others. *)
Lemma sort_append (l : list A) (x : A) :
  Sorted le l ->
  exists l1 l2,
    l = l1 ++ l2 /\ JS.sort cmp (l ++ [x]) = l1 ++ x :: l2 /\
    Forall (fun y => le y x) l1 /\ Forall (fun y => ~ le y x) l2.
Proof.
  induction 1 as [|y l Hs IH Hhd].
  - exists [], []. repeat split; constructor.
  - destruct IH as (l1 & l2 & -> & Hsort & H1 & H2).
    cbn [app JS.sort]. rewrite Hsort.
    destruct (Z_le_gt_dec (cmp y x) 0) as [Hyx|Hyx].
    + exists (y :: l1), l2. split; [reflexivity|]. split.
      * destruct l1 as [|z l1]; cbn [app].
        -- apply insert_head. exact Hyx.
        -- apply insert_head. inversion Hhd; assumption.
      * split; [constructor; assumption|exact H2].
    + assert (l1 = []) as ->.
      { destruct l1 as [|z l1]; [reflexivity|]. exfalso.
        inversion Hhd as [|? ? Hyz]; subst. inversion H1 as [|? ? Hzx]; subst.
        pose proof (cmp_trans cmp consistent y z x Hyz Hzx). lia. }
      exists [], (y :: l2). split; [reflexivity|]. split.
      * cbn [app]. cbn. destruct (0 <? cmp y x) eqn:E; [|lia]. f_equal.
        destruct l2 as [|z l2]; [reflexivity|].
        apply insert_head. inversion Hhd; assumption.
      * split; [constructor|]. constructor; [unfold le; lia|exact H2].
Qed.

Lemma filter_Sorted (P : A -> Prop) `{forall x, Decision (P x)} (l : list A) :
  Sorted le l -> Sorted le (filter P l).
Proof.
  intros Hs. apply StronglySorted_Sorted.
  assert (Transitive le) as Htrans.
  { intros a b c. apply (cmp_trans cmp consistent). }
  apply Sorted_StronglySorted in Hs; [|exact Htrans].
  induction Hs as [|x l Hs IH Hall]; [constructor|].
  destruct (decide (P x)) as [Hp|Hp].
  - rewrite filter_cons_True by exact Hp. constructor; [exact IH|].
    rewrite Forall_forall in *. intros y Hy. apply Hall.
    apply list_elem_of_filter in Hy. tauto.
  - rewrite filter_cons_False by exact Hp. exact IH.
Qed.
End SortLemmas.

Lemma by_name_consistent (env : Env) :
  consistent_comparator (localeCompare env) ->
  consistent_comparator (DataContext.by_name env).
Proof.
  intros [Ha Ht]. split; unfold DataContext.by_name.
  - intros a b. apply Ha.
  - intros a b c. apply Ht.
Qed.

(** C8. With a collation that is a consistent comparator, a remote
    listing and a cached snapshot that are sorted by name, and [exercises]
    sorted by name: [syncData], [loadData] (which starts from the cache),
    [createExercise] and [deleteExercise] all leave [exercises] sorted by
    name.  When [createExercise] resolves, [exercises] is the prior list
    with the created exercise inserted after the entries that do not sort
    after it and before the others, and the cache holds that same list. *)
Theorem exercises_stay_sorted_by_name (env : Env) (w : World) :
  consistent_comparator (localeCompare env) ->
  (forall user data,
      select_exercises env user = Ok data -> sorted_by_name env (Supabase.or_empty data)) ->
  (forall cached, storage w = Some cached -> sorted_by_name env cached) ->
  sorted_by_name env (exercises (state w)) ->
  sorted_by_name env (exercises (state (world (DataContext.syncData env w)))) /\
  sorted_by_name env (exercises (state (world (DataContext.loadData env w)))) /\
  (forall data,
      sorted_by_name env
        (exercises (state (world (DataContext.createExercise env (state w) data w))))) /\
  (forall id,
      sorted_by_name env
        (exercises (state (world (DataContext.deleteExercise env (state w) id w))))) /\
  (forall data newExercise,
      let r := DataContext.createExercise env (state w) data w in
      result r = Resolved newExercise ->
      storage (world r) = Some (exercises (state (world r))) /\
      exists l1 l2,
        exercises (state w) = l1 ++ l2 /\
        exercises (state (world r)) = l1 ++ newExercise :: l2 /\
        Forall (fun ex => name_le env ex newExercise) l1 /\
        Forall (fun ex => ~ name_le env ex newExercise) l2).
Proof.
  intros Hcmp Hremote Hcache Hstate.
  apply by_name_consistent in Hcmp.
  split; [|split; [|split; [|split]]].
  - unfold DataContext.syncData, DataContext.loadTodayWorkout. run_op.
    repeat ask_host env; eauto.
  - unfold DataContext.loadData, DataContext.syncData, DataContext.loadTodayWorkout. run_op.
    destruct (storage_ok env) eqn:Eok; cbn; [|exact Hstate].
    destruct (storage w) as [cached|] eqn:Ec; cbn; repeat ask_host env; eauto.
  - intros data. unfold DataContext.createExercise. run_op.
    repeat ask_host env; eauto; apply (sort_Sorted _ Hcmp).
  - intros id. unfold DataContext.deleteExercise. run_op.
    repeat ask_host env; eauto; apply (filter_Sorted _ Hcmp); exact Hstate.
  - intros data newExercise. cbv zeta. unfold DataContext.createExercise. run_op.
    repeat ask_host env; try discriminate.
    intros [= <-]. split; [reflexivity|].
    apply (sort_append _ Hcmp). exact Hstate.
Qed.

Lemma code_unit_compare_consistent : consistent_comparator Sample.code_unit_compare.
Proof.
  split; unfold Sample.code_unit_compare.
  - intros a b. rewrite (String.compare_antisym b a).
    destruct (String.compare a b); cbn; lia.
  - intros a b c.
    destruct (String.compare a b) eqn:Eab; [| |lia];
      destruct (String.compare b c) eqn:Ebc; try lia; intros _ _.
    + apply String.compare_eq_iff in Eab, Ebc. subst.
      pose proof (proj2 (String_as_OT.cmp_eq c c) eq_refl) as Hcc.
      unfold String_as_OT.cmp in Hcc. rewrite Hcc. lia.
    + apply String.compare_eq_iff in Eab. subst. rewrite Ebc. lia.
    + apply String.compare_eq_iff in Ebc. subst. rewrite Eab. lia.
    + apply String_as_OT.cmp_lt in Eab, Ebc.
      pose proof (String_as_OT.lt_trans _ _ _ Eab Ebc) as Hac.
      apply String_as_OT.cmp_lt in Hac. unfold String_as_OT.cmp in Hac.
      rewrite Hac. lia.
Qed.

Lemma sample_exercises_sorted : sorted_by_name Sample.env [Sample.push_ups; Sample.squats].
Proof.
  repeat constructor. vm_compute. discriminate.
Qed.

Lemma exercises_stay_sorted_by_name_witness :
  let r := DataContext.createExercise Sample.env (state Sample.synced)
             (ExerciseData.mk "Rows" None None) Sample.synced in
  exercises (state (world r)) =
    [Sample.push_ups; Exercise.mk "e-new" "u1" "Rows" None None false; Sample.squats] /\
  sorted_by_name Sample.env (exercises (state (world r))) /\
  storage (world r) = Some (exercises (state (world r))).
Proof.
  cbv zeta.
  assert (Hremote : forall user data,
             select_exercises Sample.env user = Ok data ->
             sorted_by_name Sample.env (Supabase.or_empty data)).
  { intros user data [= <-]. exact sample_exercises_sorted. }
  assert (Hcache : forall cached,
             storage Sample.synced = Some cached -> sorted_by_name Sample.env cached).
  { intros cached [= <-]. exact sample_exercises_sorted. }
  destruct (exercises_stay_sorted_by_name Sample.env Sample.synced
              code_unit_compare_consistent Hremote Hcache sample_exercises_sorted)
    as (_ & _ & Hcreate & _ & Hplace).
  split; [reflexivity|]. split.
  - apply Hcreate.
  - apply (Hplace (ExerciseData.mk "Rows" None None)
                  (Exercise.mk "e-new" "u1" "Rows" None None false)).
    reflexivity.
Defined.

(** * Further properties *)

(** ** Synchronisation *)

(** Close a case, going back to the answers of the host as long as they
    identify more of the hypotheses. *)
Ltac settle_all :=
  repeat split; intros;
  repeat (progress (simplify_eq; use_answers));
  simplify_eq; cbn; try congruence; auto 10.

(** Run the operation against every possible answer of the host. *)
Ltac by_cases env := run_op; repeat ask_host env; settle_all.

(** X1. [syncData()] never rejects, whatever the store and the cache
    answer, and it always leaves [syncing] false; it does not touch
    [loading]. *)
Theorem syncData_always_resolves (env : Env) (w : World) :
  let r := DataContext.syncData env w in
  result r = Resolved tt /\
  syncing (state (world r)) = false /\
  loading (state (world r)) = loading (state w).
Proof.
  cbv zeta. unfold DataContext.syncData, DataContext.loadTodayWorkout. by_cases env.
Qed.

(** X2. When the listing of the exercises fails, [syncData()] keeps
    [exercises], [todayWorkout], [todaySets] and the cache at their last
    value, and asks the store for nothing more: today's workout is not
    fetched. *)
Theorem syncData_listing_failure (env : Env) (w : World) (error : exn) :
  result (Supabase.getExercises env w) = Rejected error ->
  let r := DataContext.syncData env w in
  exercises (state (world r)) = exercises (state w) /\
  todayWorkout (state (world r)) = todayWorkout (state w) /\
  todaySets (state (world r)) = todaySets (state w) /\
  storage (world r) = storage w /\
  remote_calls (trace r) = remote_calls (trace (Supabase.getExercises env w)) /\
  In "Error syncing data:" (logs (trace r)).
Proof.
  cbv zeta. unfold DataContext.syncData, DataContext.loadTodayWorkout. by_cases env.
Qed.

Lemma syncData_listing_failure_witness :
  let r := DataContext.syncData Scenario.offline Scenario.stale in
  exercises (state (world r)) = [Sample.squats] /\
  remote_calls (trace r) = [GetUser; SelectExercises "u1"].
Proof.
  cbv zeta.
  destruct (syncData_listing_failure Scenario.offline Scenario.stale
              (StoreError Sample.server_error) eq_refl) as (He & _ & _ & _ & Hr & _).
  split; [exact He|exact Hr].
Defined.

(** X3. When the listing succeeds and the cache accepts the write,
    [syncData()] replaces [exercises] by the listing and overwrites the
    cache with the same list, whatever they held and whatever the fetch of
    today's workout does afterwards. *)
Theorem syncData_replaces_exercises (env : Env) (w : World) (listing : list Exercise.t) :
  result (Supabase.getExercises env w) = Resolved listing ->
  storage_ok env = true ->
  let r := DataContext.syncData env w in
  exercises (state (world r)) = listing /\
  storage (world r) = Some listing.
Proof.
  cbv zeta. unfold DataContext.syncData, DataContext.loadTodayWorkout. by_cases env.
Qed.

Lemma syncData_replaces_exercises_witness :
  let r := DataContext.syncData Sample.env Scenario.stale in
  exercises (state (world r)) = [Sample.push_ups; Sample.squats] /\
  storage (world r) = Some [Sample.push_ups; Sample.squats].
Proof.
  exact (syncData_replaces_exercises Sample.env Scenario.stale
           [Sample.push_ups; Sample.squats] eq_refl eq_refl).
Defined.

(** X4. When the listing succeeds but the write to the cache fails,
    [syncData()] has already replaced [exercises]; it then gives up:
    today's workout is not fetched, [todayWorkout], [todaySets] and the
    cache keep their value, and the failure is only logged. *)
Theorem syncData_cache_failure (env : Env) (w : World) (listing : list Exercise.t) :
  result (Supabase.getExercises env w) = Resolved listing ->
  storage_ok env = false ->
  let r := DataContext.syncData env w in
  exercises (state (world r)) = listing /\
  storage (world r) = storage w /\
  todayWorkout (state (world r)) = todayWorkout (state w) /\
  todaySets (state (world r)) = todaySets (state w) /\
  remote_calls (trace r) = remote_calls (trace (Supabase.getExercises env w)) /\
  In "Error syncing data:" (logs (trace r)).
Proof.
  cbv zeta. unfold DataContext.syncData, DataContext.loadTodayWorkout. by_cases env.
Qed.

Lemma syncData_cache_failure_witness :
  let r := DataContext.syncData Scenario.broken_storage Scenario.stale in
  exercises (state (world r)) = [Sample.push_ups; Sample.squats] /\
  storage (world r) = Some [Sample.squats] /\
  todayWorkout (state (world r)) = None.
Proof.
  cbv zeta.
  destruct (syncData_cache_failure Scenario.broken_storage Scenario.stale
              [Sample.push_ups; Sample.squats] eq_refl eq_refl) as (He & Hs & Hw & _).
  split; [exact He|]. split; [exact Hs|exact Hw].
Defined.

(** X5. [loadData()] never rejects and always ends with [loading] and
    [syncing] false, except that [syncing] keeps its value when the read
    of the cache fails, since the synchronisation is then not started. *)
Theorem loadData_always_resolves (env : Env) (w : World) :
  let r := DataContext.loadData env w in
  result r = Resolved tt /\
  loading (state (world r)) = false /\
  syncing (state (world r)) = (if storage_ok env then false else syncing (state w)).
Proof.
  cbv zeta. unfold DataContext.loadData, DataContext.syncData, DataContext.loadTodayWorkout.
  run_op. destruct (storage_ok env) eqn:Eok; cbn; [|settle].
  destruct (storage w) as [cached|]; cbn; repeat ask_host env; settle.
Qed.

(** X6. Started while the store cannot list the exercises, [loadData()]
    shows the cached snapshot: [exercises] is the cached list when there
    is one and keeps its value when there is none; the cache is not
    rewritten. *)
Theorem loadData_falls_back_on_cache (env : Env) (w : World) (error : exn) :
  storage_ok env = true ->
  result (Supabase.getExercises env w) = Rejected error ->
  let r := DataContext.loadData env w in
  exercises (state (world r)) =
    match storage w with
    | Some cached => cached
    | None => exercises (state w)
    end /\
  storage (world r) = storage w /\
  todaySets (state (world r)) = todaySets (state w).
Proof.
  cbv zeta. intros Hok.
  unfold DataContext.loadData, DataContext.syncData, DataContext.loadTodayWorkout.
  run_op. rewrite Hok. cbn.
  destruct (storage w) as [cached|]; cbn; repeat ask_host env; settle.
Qed.

Lemma loadData_falls_back_on_cache_witness :
  let r := DataContext.loadData Scenario.offline
             (mkWorld (mkState [] None [] true false) (Some [Sample.push_ups])) in
  exercises (state (world r)) = [Sample.push_ups] /\
  storage (world r) = Some [Sample.push_ups].
Proof.
  cbv zeta.
  destruct (loadData_falls_back_on_cache Scenario.offline
              (mkWorld (mkState [] None [] true false) (Some [Sample.push_ups]))
              (StoreError Sample.server_error) eq_refl eq_refl) as (He & Hs & _).
  split; [exact He|exact Hs].
Defined.

(** ** Deleting and adding sets *)

(** Removing the one element with a given key from a list without
    duplicate keys. *)
Lemma filter_out_key {A : Type} (f : A -> string) (l : list A) (k : nat) (x : A) :
  NoDup (map f l) ->
  l !! k = Some x ->
  filter (fun y => f y ≠ f x) l = take k l ++ drop (S k) l.
Proof.
  revert k. induction l as [|y l IH]; intros k Hnd Hk; [discriminate|].
  cbn in Hnd. apply NoDup_cons in Hnd as [Hy Hnd].
  destruct k as [|k]; cbn in Hk.
  - injection Hk as ->. rewrite filter_cons_False by (intros H; apply H; reflexivity).
    cbn. rewrite drop_0. apply filter_all. intros z Hz Heq. apply Hy.
    rewrite <- Heq. apply list_elem_of_fmap. exists z. split; [reflexivity|exact Hz].
  - rewrite filter_cons_True.
    + cbn. f_equal. apply IH; assumption.
    + intros Heq. apply Hy. rewrite Heq.
      apply list_elem_of_fmap. exists x. split; [reflexivity|].
      apply list_elem_of_lookup. exists k. exact Hk.
Qed.

(** X7. When [deleteSet(id)] resolves, [todaySets] is the prior list
    without the sets whose id is [id], the others unchanged and in their
    order; with distinct ids and a set of that id in the list, exactly one
    entry is gone.  The only remote call is the deletion; [exercises],
    [todayWorkout] (also when the last set of the day is deleted) and the
    cache are left as they were. *)
Theorem deleteSet_removes_only_the_set (env : Env) (w : World) (setId : string) :
  let r := DataContext.deleteSet env (state w) setId w in
  result r = Resolved tt ->
  todaySets (state (world r)) =
    filter (fun s => SetWithExercise.id s ≠ setId) (todaySets (state w)) /\
  (forall s, s ∈ todaySets (state (world r)) <->
             s ∈ todaySets (state w) /\ SetWithExercise.id s ≠ setId) /\
  todaySets (state (world r)) `sublist_of` todaySets (state w) /\
  (NoDup (map SetWithExercise.id (todaySets (state w))) ->
   setId ∈ map SetWithExercise.id (todaySets (state w)) ->
   S (length (todaySets (state (world r)))) = length (todaySets (state w))) /\
  remote_calls (trace r) = [DeleteSet setId] /\
  exercises (state (world r)) = exercises (state w) /\
  todayWorkout (state (world r)) = todayWorkout (state w) /\
  storage (world r) = storage w.
Proof.
  cbv zeta. unfold DataContext.deleteSet. run_op.
  destruct (delete_set env setId) as [[]|]; cbn; [|discriminate].
  intros _. split; [reflexivity|]. split; [|split; [|split; [|auto]]].
  - intros s. rewrite list_elem_of_filter. tauto.
  - apply sublist_filter.
  - intros Hnd Hin. apply list_elem_of_fmap in Hin as (x & -> & Hx).
    apply list_elem_of_lookup in Hx as [k Hk].
    rewrite (filter_out_key SetWithExercise.id _ k x Hnd Hk).
    rewrite length_app, length_take, length_drop.
    apply lookup_lt_Some in Hk. lia.
Qed.

Lemma deleteSet_removes_only_the_set_witness :
  let r := DataContext.deleteSet Sample.env (state Sample.synced) "s1" Sample.synced in
  todaySets (state (world r)) = [Sample.squats_5] /\
  todayWorkout (state (world r)) = Some Sample.new_year.
Proof.
  cbv zeta.
  destruct (deleteSet_removes_only_the_set Sample.env Sample.synced "s1" eq_refl)
    as (Hs & _ & _ & _ & _ & _ & Hw & _).
  split; [exact Hs|exact Hw].
Defined.

(** X8. With a workout for today in its render, [addSet] sends exactly one
    remote call, the insertion of the set into that workout for the given
    exercise: it neither asks for the user nor creates a workout.  Whether
    it resolves or not, [exercises], [todayWorkout] and the cache are left
    as they were. *)
Theorem addSet_with_workout_only_inserts (env : Env) (view : State) (w : World)
        (exerciseId : string) (reps weight : JS.value) (workout : Workout.t) :
  todayWorkout view = Some workout ->
  let r := DataContext.addSet env view exerciseId reps weight w in
  (exists d, remote_calls (trace r) = [InsertSet d] /\
             SetData.workout_id d = Workout.id workout /\
             SetData.exercise_id d = exerciseId) /\
  exercises (state (world r)) = exercises (state w) /\
  todayWorkout (state (world r)) = todayWorkout (state w) /\
  storage (world r) = storage w.
Proof.
  intros Hview. cbv zeta. unfold DataContext.addSet. rewrite Hview. run_op.
  match goal with |- context [insert_set env ?d0] =>
    destruct (insert_set env d0); cbn end; eauto 10.
Qed.

Lemma addSet_with_workout_only_inserts_witness :
  exists d,
    remote_calls (trace (DataContext.addSet Sample.env (state Sample.synced) "e3"
                           (JS.VNum (JS.Fin 5 0)) JS.VNull Sample.synced)) = [InsertSet d] /\
    SetData.workout_id d = "w1".
Proof.
  destruct (addSet_with_workout_only_inserts Sample.env (state Sample.synced) Sample.synced
              "e3" (JS.VNum (JS.Fin 5 0)) JS.VNull Sample.new_year eq_refl)
    as ((d & Hc & Hw & _) & _).
  exists d. split; [exact Hc|exact Hw].
Defined.

(** X9. Without a workout for today in its render, an [addSet] that
    resolves has first created one: the remote calls are the request for
    the user, the creation of a workout dated today and the insertion of
    the set into the created workout, in this order; [todayWorkout] is the
    created workout, and [exercises] and the cache are left as they were. *)
Theorem addSet_creates_todays_workout (env : Env) (view : State) (w : World)
        (exerciseId : string) (reps weight : JS.value) (newSet : Set_.t) :
  todayWorkout view = None ->
  let r := DataContext.addSet env view exerciseId reps weight w in
  result r = Resolved newSet ->
  exists user workout d,
    auth_user env = Some user /\
    insert_workout env user (today env) None = Ok workout /\
    remote_calls (trace r) =
      [GetUser; InsertWorkout user (today env) None; InsertSet d] /\
    SetData.workout_id d = Workout.id workout /\
    todayWorkout (state (world r)) = Some workout /\
    exercises (state (world r)) = exercises (state w) /\
    storage (world r) = storage w.
Proof.
  intros Hview. cbv zeta. unfold DataContext.addSet. rewrite Hview. run_op.
  destruct (auth_user env) as [user|]; cbn; [|discriminate].
  destruct (insert_workout env user (today env) None) as [workout|] eqn:Ew; cbn;
    [|discriminate].
  match goal with |- context [insert_set env ?d0] =>
    destruct (insert_set env d0); cbn end; [|discriminate].
  intros _. eexists _, _, _. repeat split; try reflexivity. exact Ew.
Qed.

Lemma addSet_creates_todays_workout_witness :
  exists user workout d,
    auth_user Sample.env = Some user /\
    insert_workout Sample.env user (today Sample.env) None = Ok workout /\
    remote_calls (trace (DataContext.addSet Sample.env (state Sample.fresh) "e3"
                           (JS.VNum (JS.Fin 5 0)) JS.VNull Sample.fresh)) =
      [GetUser; InsertWorkout user (today Sample.env) None; InsertSet d].
Proof.
  destruct (addSet_creates_todays_workout Sample.env (state Sample.fresh) Sample.fresh
              "e3" (JS.VNum (JS.Fin 5 0)) JS.VNull
              (Set_.mk "s-new" "w-new" "e3" 5 None 0) eq_refl eq_refl)
    as (user & workout & d & Hu & Hw & Hc & _).
  exists user, workout, d. auto.
Defined.

(** X10. A falsy weight (0, NaN, the empty string, null or undefined) is
    sent as null: [addSet] then runs exactly as with no weight, and every
    insertion it sends carries a null weight.  A weight of 0 is never
    stored as 0. *)
Theorem addSet_sends_falsy_weight_as_null (env : Env) (view : State) (w : World)
        (exerciseId : string) (reps weight : JS.value) :
  JS.ToBoolean weight = false ->
  DataContext.addSet env view exerciseId reps weight w
  = DataContext.addSet env view exerciseId reps JS.VNull w /\
  (forall d, In (InsertSet d)
                (remote_calls (trace (DataContext.addSet env view exerciseId reps weight w))) ->
             SetData.weight d = None).
Proof.
  intros Hfalsy.
  assert (Hw : JS.ToBoolean match weight with
                            | JS.VUndefined => JS.VNull
                            | _ => weight
                            end = false) by (destruct weight; auto).
  unfold DataContext.addSet. rewrite Hw. split; [reflexivity|]. run_op.
  destruct (todayWorkout view) as [workout|]; cbn.
  - match goal with |- context [insert_set env ?d0] =>
      destruct (insert_set env d0); cbn end; intros d Hin; inv_in Hin; subst; reflexivity.
  - destruct (auth_user env) as [user|]; cbn; [|intros d Hin; inv_in Hin].
    destruct (insert_workout env user (today env) None) as [workout|]; cbn;
      [|intros d Hin; inv_in Hin].
    match goal with |- context [insert_set env ?d0] =>
      destruct (insert_set env d0); cbn end; intros d Hin; inv_in Hin; subst; reflexivity.
Qed.

Lemma addSet_sends_falsy_weight_as_null_witness :
  remote_calls (trace (DataContext.addSet Sample.env (state Sample.synced) "e3"
                         (JS.VNum (JS.Fin 5 0)) (JS.VNum (JS.Fin 0 1)) Sample.synced))
  = [InsertSet (SetData.mk "w1" "e3" (JS.Fin 5 0) None 2)].
Proof.
  rewrite (proj1 (addSet_sends_falsy_weight_as_null Sample.env (state Sample.synced)
                    Sample.synced "e3" (JS.VNum (JS.Fin 5 0)) (JS.VNum (JS.Fin 0 1)) eq_refl)).
  reflexivity.
Defined.

(** ** How the operations on sets compose *)

(** What a resolved [addSet] leaves in [todaySets], in terms of the render
    it was created in. *)
Lemma addSet_resolved (env : Env) (view : State) (w : World)
      (exerciseId : string) (reps weight : JS.value) (newSet : Set_.t) :
  result (DataContext.addSet env view exerciseId reps weight w) = Resolved newSet ->
  todaySets (state (world (DataContext.addSet env view exerciseId reps weight w))) =
    todaySets view ++
    [SetWithExercise.mk newSet
       (Some (DataContext.display_name
                (find (fun ex => String.eqb (Exercise.id ex) exerciseId) (exercises view))))] /\
  exists d, insert_set env d = Ok newSet /\
            SetData.order_index d = Z.of_nat (length (todaySets view)) /\
            SetData.exercise_id d = exerciseId /\
            SetData.reps d = JS.parseInt reps.
Proof.
  unfold DataContext.addSet. run_op.
  destruct (todayWorkout view) as [workout|]; cbn.
  - match goal with |- context [insert_set env ?d0] =>
      destruct (insert_set env d0) eqn:Es; cbn end; [|discriminate].
    intros [= <-]. split; [reflexivity|]. eexists. split; [exact Es|]. cbn. auto.
  - destruct (auth_user env) as [user|]; cbn; [|discriminate].
    destruct (insert_workout env user (today env) None) as [workout|]; cbn; [|discriminate].
    match goal with |- context [insert_set env ?d0] =>
      destruct (insert_set env d0) eqn:Es; cbn end; [|discriminate].
    intros [= <-]. split; [reflexivity|]. eexists. split; [exact Es|]. cbn. auto.
Qed.

Lemma deleteSet_resolved (env : Env) (view : State) (w : World) (setId : string) :
  result (DataContext.deleteSet env view setId w) = Resolved tt ->
  todaySets (state (world (DataContext.deleteSet env view setId w))) =
    filter (fun s => SetWithExercise.id s ≠ setId) (todaySets view).
Proof.
  unfold DataContext.deleteSet. run_op.
  destruct (delete_set env setId) as [[]|]; cbn; [reflexivity|discriminate].
Qed.

(** X11. [addSet] computes from the state of the render it was created
    in.  Two calls from one render that both resolve both send
    [order_index = n], the length of [todaySets] in that render, and the
    second write replaces the first: after the two insertions [todaySets]
    has n + 1 entries, the prior ones followed by the second set alone.
    When the render had no workout for today, each call creates one. *)
Theorem addSet_twice_from_one_render
        (env : Env) (w : World) (exercise1 exercise2 : string)
        (reps1 weight1 reps2 weight2 : JS.value) (set1 set2 : Set_.t) :
  let view := state w in
  let first := DataContext.addSet env view exercise1 reps1 weight1 w in
  let second := DataContext.addSet env view exercise2 reps2 weight2 (world first) in
  result first = Resolved set1 ->
  result second = Resolved set2 ->
  todaySets (state (world second)) =
    todaySets view ++
    [SetWithExercise.mk set2
       (Some (DataContext.display_name
                (find (fun ex => String.eqb (Exercise.id ex) exercise2) (exercises view))))] /\
  length (todaySets (state (world second))) = S (length (todaySets view)) /\
  (forall d, In (InsertSet d) (remote_calls (trace first ++ trace second)) ->
             SetData.order_index d = Z.of_nat (length (todaySets view))) /\
  (todayWorkout view = None ->
   exists user d1 d2,
     remote_calls (trace first ++ trace second) =
       [GetUser; InsertWorkout user (today env) None; InsertSet d1;
        GetUser; InsertWorkout user (today env) None; InsertSet d2]).
Proof.
  cbv zeta. intros H1 H2.
  destruct (addSet_resolved _ _ _ _ _ _ _ H2) as [Hsets _].
  split; [exact Hsets|]. split; [rewrite Hsets, length_app; cbn; lia|].
  clear Hsets. revert H1 H2. unfold DataContext.addSet. run_op.
  destruct (todayWorkout (state w)) as [workout|]; cbn.
  - do 2 (match goal with |- context [match insert_set env ?d0 with _ => _ end] =>
            destruct (insert_set env d0); cbn end; [|discriminate]).
    intros _ _. split; [|discriminate].
    intros d Hin. inv_in Hin; subst; reflexivity.
  - destruct (auth_user env) as [user|]; cbn; [|discriminate].
    destruct (insert_workout env user (today env) None) as [workout|]; cbn; [|discriminate].
    do 2 (match goal with |- context [match insert_set env ?d0 with _ => _ end] =>
            destruct (insert_set env d0); cbn end; [|discriminate]).
    intros _ _. split.
    + intros d Hin. inv_in Hin; subst; reflexivity.
    + intros _. eexists _, _, _. reflexivity.
Qed.

Lemma addSet_twice_from_one_render_witness :
  let first := DataContext.addSet Sample.env (state Sample.fresh) "e2"
                 (JS.VNum (JS.Fin 10 0)) JS.VNull Sample.fresh in
  let second := DataContext.addSet Sample.env (state Sample.fresh) "e3"
                  (JS.VNum (JS.Fin 5 0)) JS.VNull (world first) in
  length (todaySets (state (world second))) = 1%nat.
Proof.
  cbv zeta.
  destruct (addSet_twice_from_one_render Sample.env Sample.fresh "e2" "e3"
              (JS.VNum (JS.Fin 10 0)) JS.VNull (JS.VNum (JS.Fin 5 0)) JS.VNull
              (Set_.mk "s-new" "w-new" "e2" 10 None 0)
              (Set_.mk "s-new" "w-new" "e3" 5 None 0) eq_refl eq_refl) as (_ & Hl & _).
  exact Hl.
Defined.

(** X12. [order_index] is the length of [todaySets], so it is reused after
    a deletion.  From n sets numbered 0, 1, ..., n-1 with distinct ids and
    a store that answers an insert with the inserted row: deleting a set
    other than the last and then adding a set leaves a list whose last two
    entries, the former last set and the new set, both carry
    [order_index = n-1]. *)
Theorem order_index_reused_after_delete
        (env : Env) (w : World) (k : nat) (deleted : SetWithExercise.t)
        (exerciseId : string) (reps weight : JS.value) (newSet : Set_.t) :
  store_returns_inserted_set env ->
  (forall i s, todaySets (state w) !! i = Some s ->
               SetWithExercise.order_index s = Z.of_nat i) ->
  NoDup (map SetWithExercise.id (todaySets (state w))) ->
  todaySets (state w) !! k = Some deleted ->
  (S k < length (todaySets (state w)))%nat ->
  let n := length (todaySets (state w)) in
  let r1 := DataContext.deleteSet env (state w) (SetWithExercise.id deleted) w in
  let r2 := DataContext.addSet env (state (world r1)) exerciseId reps weight (world r1) in
  result r1 = Resolved tt ->
  result r2 = Resolved newSet ->
  length (todaySets (state (world r2))) = n /\
  exists other entry,
    todaySets (state (world r2)) !! (n - 2)%nat = Some other /\
    todaySets (state (world r2)) !! (n - 1)%nat = Some entry /\
    SetWithExercise.set entry = newSet /\
    SetWithExercise.order_index other = Z.of_nat (n - 1) /\
    SetWithExercise.order_index entry = Z.of_nat (n - 1).
Proof.
  intros Hstore Hnum Hnd Hk Hlast. cbv zeta. intros H1 H2.
  pose proof (deleteSet_resolved _ _ _ _ H1) as Hdel.
  rewrite (filter_out_key SetWithExercise.id _ k deleted Hnd Hk) in Hdel.
  destruct (addSet_resolved _ _ _ _ _ _ _ H2) as (Hadd & d & Hd & Ho & _ & _).
  destruct (Hstore _ _ Hd) as (_ & _ & _ & _ & Hecho).
  set (l := todaySets (state w)) in *.
  set (l1 := todaySets (state (world (DataContext.deleteSet env (state w)
                                        (SetWithExercise.id deleted) w)))) in *.
  assert (Hlen : length l1 = (length l - 1)%nat).
  { rewrite Hdel, length_app, length_take, length_drop. lia. }
  destruct (lookup_lt_is_Some_2 l (length l - 1)%nat) as [other Hother]; [lia|].
  assert (Hl1 : l1 !! (length l - 2)%nat = Some other).
  { rewrite Hdel, lookup_app_r by (rewrite length_take; lia).
    rewrite length_take, lookup_drop. rewrite <- Hother. f_equal. lia. }
  rewrite Hadd. split; [rewrite length_app; cbn; lia|].
  eexists other, _. split.
  { rewrite lookup_app_l by lia. exact Hl1. }
  split.
  { rewrite lookup_app_r by lia.
    replace (length l - 1 - length l1)%nat with 0%nat by lia. reflexivity. }
  split; [reflexivity|]. split.
  - apply Hnum. exact Hother.
  - unfold SetWithExercise.order_index. cbn. rewrite Hecho, Ho. fold l1.
    rewrite Hlen. reflexivity.
Qed.

Lemma order_index_reused_after_delete_witness :
  let r1 := DataContext.deleteSet Sample.env (state Sample.synced) "s1" Sample.synced in
  let r2 := DataContext.addSet Sample.env (state (world r1)) "e3"
              (JS.VNum (JS.Fin 7 0)) JS.VNull (world r1) in
  exists other entry,
    todaySets (state (world r2)) !! 0%nat = Some other /\
    todaySets (state (world r2)) !! 1%nat = Some entry /\
    SetWithExercise.order_index other = 1 /\
    SetWithExercise.order_index entry = 1.
Proof.
  cbv zeta.
  assert (Hnum : forall i s, todaySets (state Sample.synced) !! i = Some s ->
                             SetWithExercise.order_index s = Z.of_nat i).
  { intros [|[|i]] s; cbn; intros [= <-]; reflexivity. }
  assert (Hnd : NoDup (map SetWithExercise.id (todaySets (state Sample.synced)))).
  { cbn. apply NoDup_cons. split; [|apply NoDup_singleton].
    intros Hin. apply list_elem_of_singleton in Hin. discriminate Hin. }
  destruct (order_index_reused_after_delete Sample.env Sample.synced 0 Sample.push_ups_10
              "e3" (JS.VNum (JS.Fin 7 0)) JS.VNull (Set_.mk "s-new" "w1" "e3" 7 None 1)
              sample_store_returns_inserted_set Hnum Hnd eq_refl) as (_ & other & entry & H);
    [cbn; lia|reflexivity|reflexivity|].
  exists other, entry. destruct H as (H0 & H1 & _ & Ho & He).
  split; [exact H0|]. split; [exact H1|]. split; [exact Ho|exact He].
Defined.

(** ** The remote-store client *)

(** X13. Without a signed-in user, the functions of [database] that ask
    for the user reject with "No authenticated user" after that one
    request: no query on a table is sent. *)
Theorem database_requires_user (env : Env) (w : World) :
  auth_user env = None ->
  let no_user {A} (r : run A) :=
    result r = Rejected (JsError "No authenticated user") /\
    remote_calls (trace r) = [GetUser] in
  no_user (Supabase.getExercises env w) /\
  (forall exercise, no_user (Supabase.createExercise env exercise w)) /\
  no_user (Supabase.getTodaysWorkout env w) /\
  (forall date note, no_user (Supabase.createWorkout env date note w)) /\
  (forall startDate endDate, no_user (Supabase.getWorkoutsByDateRange env startDate endDate w)) /\
  no_user (Supabase.exportData env w).
Proof.
  intros Hu. cbv zeta. run_op. rewrite Hu. cbn. auto 20.
Qed.

Lemma database_requires_user_witness :
  result (Supabase.exportData Scenario.signed_out Sample.synced)
  = Rejected (JsError "No authenticated user") /\
  remote_calls (trace (Supabase.exportData Scenario.signed_out Sample.synced)) = [GetUser].
Proof.
  apply (database_requires_user Scenario.signed_out Sample.synced eq_refl).
Defined.

(** X14. The functions of [database] that the data provider calls: a
    failed answer of the store makes [getExercises], [createExercise],
    [deleteExercise], [createWorkout], [getWorkoutsByDateRange],
    [getSetsForWorkout], [createSet], [deleteSet] and [exportData] reject
    with exactly that error, after logging, whatever its code;
    [createWorkout], which asks for a single row, also on row-not-found.
    [getTodaysWorkout] does the same on every code but row-not-found
    (PGRST116): that one it lets through, and resolves to null without
    logging, having sent its two requests. *)
Theorem database_surfaces_store_errors (env : Env) (w : World) (user : string)
        (error : PostgrestError) :
  auth_user env = Some user ->
  let surfaced {A} (r : run A) :=
    result r = Rejected (StoreError error) /\ logs (trace r) <> [] in
  (select_exercises env user = Failed error -> surfaced (Supabase.getExercises env w)) /\
  (forall exercise, insert_exercise env user exercise = Failed error ->
                    surfaced (Supabase.createExercise env exercise w)) /\
  (forall id, archive_exercise env id = Failed error ->
              surfaced (Supabase.deleteExercise env id w)) /\
  (forall date note, insert_workout env user date note = Failed error ->
                     surfaced (Supabase.createWorkout env date note w)) /\
  (forall startDate endDate, select_workouts env user startDate endDate = Failed error ->
                             surfaced (Supabase.getWorkoutsByDateRange env startDate endDate w)) /\
  (forall id, select_sets env id = Failed error ->
              surfaced (Supabase.getSetsForWorkout env id w)) /\
  (forall set, insert_set env set = Failed error -> surfaced (Supabase.createSet env set w)) /\
  (forall id, delete_set env id = Failed error -> surfaced (Supabase.deleteSet env id w)) /\
  (select_export env user = Failed error -> surfaced (Supabase.exportData env w)) /\
  (select_workout env user (today env) = Failed error ->
   if String.eqb (code error) "PGRST116"
   then Supabase.getTodaysWorkout env w
        = mkRun [Remote GetUser; Remote (SelectWorkout user (today env))] w (Resolved None)
   else surfaced (Supabase.getTodaysWorkout env w)).
Proof.
  intros Hu. cbv zeta. run_op. rewrite Hu. cbn.
  repeat split; intros; repeat match goal with H : _ = Failed _ |- _ => rewrite H; clear H end;
    cbn; try reflexivity; try discriminate.
  destruct (code error =? "PGRST116")%string; cbn; [reflexivity|].
  split; [reflexivity|discriminate].
Qed.

Lemma database_surfaces_store_errors_witness :
  result (Supabase.createWorkout Scenario.offline "2024-01-02" None Sample.synced)
  = Rejected (StoreError Sample.server_error).
Proof.
  apply (proj1 (proj2 (proj2 (proj2
           (database_surfaces_store_errors Scenario.offline Sample.synced "u1"
              Sample.server_error eq_refl))))
           "2024-01-02" None eq_refl).
Defined.

(** ** Loading today's workout, the cache *)

(** X15. [loadTodayWorkout()] only writes [todayWorkout] and [todaySets]:
    [exercises], [loading], [syncing] and the cache are left as they were,
    whatever the store answers.  When the store has a workout for today
    and lists its sets, these become [todayWorkout] and [todaySets], a
    null listing counting as no set. *)
Theorem loadTodayWorkout_writes_today_only (env : Env) (w : World) :
  let r := DataContext.loadTodayWorkout env w in
  exercises (state (world r)) = exercises (state w) /\
  loading (state (world r)) = loading (state w) /\
  syncing (state (world r)) = syncing (state w) /\
  storage (world r) = storage w /\
  (forall user workout data,
      auth_user env = Some user ->
      select_workout env user (today env) = Ok workout ->
      select_sets env (Workout.id workout) = Ok data ->
      todayWorkout (state (world r)) = Some workout /\
      todaySets (state (world r)) = Supabase.or_empty data /\
      remote_calls (trace r) =
        [GetUser; SelectWorkout user (today env); SelectSets (Workout.id workout)]).
Proof.
  cbv zeta. unfold DataContext.loadTodayWorkout. by_cases env.
Qed.

Lemma loadTodayWorkout_writes_today_only_witness :
  let r := DataContext.loadTodayWorkout Sample.env Scenario.stale in
  todayWorkout (state (world r)) = Some Sample.new_year /\
  todaySets (state (world r)) = [Sample.push_ups_10; Sample.squats_5] /\
  exercises (state (world r)) = [Sample.squats].
Proof.
  cbv zeta.
  destruct (loadTodayWorkout_writes_today_only Sample.env Scenario.stale)
    as (He & _ & _ & _ & H).
  destruct (H "u1" Sample.new_year (Some [Sample.push_ups_10; Sample.squats_5])
              eq_refl eq_refl eq_refl) as (Hw & Hs & _).
  split; [exact Hw|]. split; [exact Hs|exact He].
Defined.

(** X16. [createExercise] and [deleteExercise] write the state before the
    cache.  When the remote call succeeds and the write to the cache
    fails, the operation rejects with the error of the cache although the
    store has done the change: [exercises] already has the new list and
    the cache keeps the old one. *)
Theorem cache_failure_after_remote_success (env : Env) (view : State) (w : World) :
  storage_ok env = false ->
  (forall data newExercise,
      result (Supabase.createExercise env data w) = Resolved newExercise ->
      let r := DataContext.createExercise env view data w in
      result r = Rejected StorageError /\
      exercises (state (world r)) =
        JS.sort (DataContext.by_name env) (exercises view ++ [newExercise]) /\
      storage (world r) = storage w) /\
  (forall id,
      result (Supabase.deleteExercise env id w) = Resolved tt ->
      let r := DataContext.deleteExercise env view id w in
      result r = Rejected StorageError /\
      exercises (state (world r)) =
        filter (fun ex => Exercise.id ex ≠ id) (exercises view) /\
      storage (world r) = storage w).
Proof.
  intros Hok. split.
  - intros data newExercise. cbv zeta. unfold DataContext.createExercise. run_op.
    rewrite Hok. repeat ask_host env; settle.
  - intros id. cbv zeta. unfold DataContext.deleteExercise. run_op.
    rewrite Hok. repeat ask_host env; settle.
Qed.

Lemma cache_failure_after_remote_success_witness :
  let r := DataContext.deleteExercise Scenario.broken_storage (state Sample.synced) "e2"
             Sample.synced in
  result r = Rejected StorageError /\
  exercises (state (world r)) = [Sample.squats] /\
  storage (world r) = Some [Sample.push_ups; Sample.squats].
Proof.
  apply (proj2 (cache_failure_after_remote_success Scenario.broken_storage
                  (state Sample.synced) Sample.synced eq_refl) "e2" eq_refl).
Defined.

(** ** The workout history *)

Lemma remote_calls_app (t1 t2 : list event) :
  remote_calls (t1 ++ t2) = remote_calls t1 ++ remote_calls t2.
Proof. apply omap_app. Qed.

Lemma remote_calls_requests (t : list event) :
  remote_calls (filter WorkoutHistory.is_request t) = remote_calls t.
Proof.
  unfold remote_calls. induction t as [|e t IH]; [reflexivity|].
  rewrite filter_cons.
  destruct e; cbn; destruct (decide _) as [H|H]; cbn in *;
    try (f_equal; exact IH); try exact IH; exfalso; tauto.
Qed.

Lemma remote_calls_answers (t : list event) :
  remote_calls (filter (fun e => negb (WorkoutHistory.is_request e)) t) = [].
Proof.
  unfold remote_calls. induction t as [|e t IH]; [reflexivity|].
  rewrite filter_cons.
  destruct e; cbn; destruct (decide _) as [H|H]; cbn in *;
    try (f_equal; exact IH); try exact IH; exfalso; tauto.
Qed.

Lemma start_all_with_sets (env : Env) (workouts : list Workout.t) (w : World) :
  exists requests answers o,
    WorkoutHistory.start_all (map (WorkoutHistory.with_sets env) workouts) w
    = (requests, answers, w, o) /\
    remote_calls requests = map (fun workout => SelectSets (Workout.id workout)) workouts /\
    remote_calls answers = [] /\
    ((exists history, o = Resolved history) <->
     Forall (fun workout => exists data, select_sets env (Workout.id workout) = Ok data)
            workouts) /\
    (forall history,
        o = Resolved history ->
        history = map (fun workout => WorkoutWithSets.mk workout (listed_sets env workout))
                      workouts).
Proof.
  induction workouts as [|workout workouts IH]; cbn [map WorkoutHistory.start_all].
  - eexists _, _, _. split; [reflexivity|]. cbn. repeat split; eauto.
    intros history [= <-]. reflexivity.
  - destruct IH as (requests & answers & o' & He & Hc & Ha & Hiff & Hres).
    unfold WorkoutHistory.with_sets at 1. unfold listed_sets at 1. run_op.
    destruct (select_sets env (Workout.id workout)) as [data|error] eqn:Es; cbn;
      rewrite He; eexists _, _, _; (split; [reflexivity|]);
      rewrite ?remote_calls_app, ?remote_calls_requests, ?remote_calls_answers;
      cbn; rewrite ?Hc.
    + split; [reflexivity|]. split; [exact Ha|]. split.
      * split.
        -- intros [history Hh]. constructor; [eauto|]. apply Hiff.
           destruct o'; [eauto|discriminate].
        -- intros Hall. apply Forall_cons in Hall as [_ Hall].
           apply Hiff in Hall as [history ->]. eauto.
      * intros history Hh. destruct o' as [l|]; [|discriminate].
        injection Hh as <-. f_equal. apply Hres. reflexivity.
    + split; [reflexivity|]. split; [reflexivity|]. split.
      * split; [intros [history Hh]; discriminate|].
        intros Hall. apply Forall_cons in Hall as [[data Hd] _]. congruence.
      * intros history [=].
Qed.

Lemma promise_all_with_sets (env : Env) (workouts : list Workout.t) (w : World) :
  let r := WorkoutHistory.promise_all (map (WorkoutHistory.with_sets env) workouts) w in
  world r = w /\
  remote_calls (trace r) = map (fun workout => SelectSets (Workout.id workout)) workouts /\
  ((exists history, result r = Resolved history) <->
   Forall (fun workout => exists data, select_sets env (Workout.id workout) = Ok data)
          workouts) /\
  (forall history,
      result r = Resolved history ->
      history = map (fun workout => WorkoutWithSets.mk workout (listed_sets env workout))
                    workouts).
Proof.
  cbv zeta. unfold WorkoutHistory.promise_all.
  destruct (start_all_with_sets env workouts w)
    as (requests & answers & o & -> & Hc & Ha & Hiff & Hres).
  cbn. rewrite remote_calls_app, Hc, Ha, app_nil_r. auto.
Qed.

(** X17. Once the store has listed the workouts of the range,
    [getWorkoutHistory] sends one query for the sets of each workout, in
    the order of the listing and whether or not an earlier one fails.  It
    resolves exactly when all these queries succeed, to the listed
    workouts in their order, each with the sets the store listed for it;
    it never writes the state. *)
Theorem getWorkoutHistory_one_query_per_workout
        (env : Env) (w : World) (startDate endDate user : string)
        (listing : option (list Workout.t)) :
  auth_user env = Some user ->
  select_workouts env user startDate endDate = Ok listing ->
  let workouts := Supabase.or_empty listing in
  let r := WorkoutHistory.getWorkoutHistory env startDate endDate w in
  remote_calls (trace r) =
    GetUser :: SelectWorkouts user startDate endDate ::
    map (fun workout => SelectSets (Workout.id workout)) workouts /\
  world r = w /\
  ((exists history, result r = Resolved history) <->
   Forall (fun workout => exists data, select_sets env (Workout.id workout) = Ok data)
          workouts) /\
  (forall history,
      result r = Resolved history ->
      history = map (fun workout => WorkoutWithSets.mk workout (listed_sets env workout))
                    workouts).
Proof.
  intros Hu Hl. cbv zeta.
  destruct (promise_all_with_sets env (Supabase.or_empty listing) w)
    as (Hw & Hc & Hiff & Hres).
  unfold WorkoutHistory.getWorkoutHistory. run_op. rewrite Hu. cbn. rewrite Hl. cbn.
  destruct (WorkoutHistory.promise_all _ w) as [t' w2 o'] eqn:Ep.
  cbn [world trace result] in *.
  destruct o' as [history|error]; cbn; rewrite ?remote_calls_app; cbn;
    rewrite ?app_nil_r; subst w2; rewrite Hc.
  - split; [reflexivity|]. split; [reflexivity|]. split.
    + rewrite <- Hiff. split; eauto.
    + intros h [= <-]. apply Hres. reflexivity.
  - split; [reflexivity|]. split; [reflexivity|]. split.
    + rewrite <- Hiff. split; intros [h Hh]; discriminate.
    + intros h [=].
Qed.

Lemma getWorkoutHistory_one_query_per_workout_witness :
  let r := WorkoutHistory.getWorkoutHistory Sample.env "2024-01-01" "2024-01-31"
             Sample.fresh in
  remote_calls (trace r) =
    [GetUser; SelectWorkouts "u1" "2024-01-01" "2024-01-31"; SelectSets "w1"] /\
  world r = Sample.fresh.
Proof.
  cbv zeta.
  destruct (getWorkoutHistory_one_query_per_workout Sample.env Sample.fresh
              "2024-01-01" "2024-01-31" "u1" (Some [Sample.new_year]) eq_refl eq_refl)
    as (Hc & Hw & _).
  split; [exact Hc|exact Hw].
Defined.

(** ** The screens that call the provider *)

(** What the schema of the Add Set form lets through. *)
Lemma setSchema_accepts (values : AddSetScreen.FormValues) (data : AddSetScreen.FormData) :
  AddSetScreen.setSchema values = Some data ->
  (exists z, AddSetScreen.reps data = JS.Fin z 0 /\ 1 <= z <= 999) /\
  (AddSetScreen.weight_input values = JS.VStr "" -> AddSetScreen.weight data = None).
Proof.
  destruct values as [rv wv], data as [r wt]. unfold AddSetScreen.setSchema. cbn.
  destruct (AddSetScreen.reps_schema rv) as [r'|] eqn:Er; [|discriminate].
  destruct (AddSetScreen.weight_schema wv) as [w'|] eqn:Ew; [|discriminate].
  intros [= -> ->]. split.
  - destruct rv as [| |x|s]; try discriminate. unfold AddSetScreen.reps_schema in Er.
    destruct (1 <=? String.length s)%nat; [|discriminate].
    unfold JS.parseInt in Er.
    match type of Er with (if ?b then _ else _) = _ =>
      destruct b eqn:Eb; [|discriminate] end.
    injection Er as <-. apply parseInt_chars_in_range. exact Eb.
  - intros ->. cbn in Ew. congruence.
Qed.

(** X18. Submitting the Add Set form never rejects, and without a selected
    exercise it does nothing.  Every insertion of a set it sends to the
    store is for the selected exercise and carries reps that are an
    integer between 1 and 999; a weight field left empty is sent as
    null. *)
Theorem add_set_form_sends_valid_reps
        (env : Env) (view : State) (selectedExercise : option Exercise.t)
        (values : AddSetScreen.FormValues) (w : World) :
  let r := AddSetScreen.handleSubmit env view selectedExercise values w in
  (exists text, result r = Resolved text) /\
  (selectedExercise = None -> trace r = [] /\ world r = w) /\
  (forall d, In (InsertSet d) (remote_calls (trace r)) ->
             exists exercise z,
               selectedExercise = Some exercise /\
               SetData.exercise_id d = Exercise.id exercise /\
               SetData.reps d = JS.Fin z 0 /\ 1 <= z <= 999 /\
               (AddSetScreen.weight_input values = JS.VStr "" -> SetData.weight d = None)).
Proof.
  cbv zeta. unfold AddSetScreen.handleSubmit.
  destruct (AddSetScreen.setSchema values) as [data|] eqn:Es.
  2: { cbn. split; [eauto|]. split; [auto|]. intros d []. }
  destruct (setSchema_accepts _ _ Es) as ((z & Hr & Hz) & Hweight).
  unfold AddSetScreen.onSubmit.
  destruct selectedExercise as [exercise|].
  2: { cbn. split; [eauto|]. split; [auto|]. intros d []. }
  rewrite Hr. unfold DataContext.addSet.
  rewrite (parseInt_small_integer z Hz). run_op.
  assert (Hnull : AddSetScreen.weight_input values = JS.VStr "" ->
                  (if JS.ToBoolean match AddSetScreen.weight_value (AddSetScreen.weight data) with
                                   | JS.VUndefined => JS.VNull
                                   | _ => AddSetScreen.weight_value (AddSetScreen.weight data)
                                   end
                   then Some (JS.parseFloat
                                match AddSetScreen.weight_value (AddSetScreen.weight data) with
                                | JS.VUndefined => JS.VNull
                                | _ => AddSetScreen.weight_value (AddSetScreen.weight data)
                                end)
                   else None) = None).
  { intros Hv. rewrite (Hweight Hv). reflexivity. }
  destruct (todayWorkout view) as [workout|]; cbn.
  - match goal with |- context [match insert_set env ?d0 with _ => _ end] =>
      destruct (insert_set env d0); cbn end;
      (split; [eauto|]); (split; [discriminate|]);
      intros d Hin; inv_in Hin; subst; exists exercise, z; cbn; auto 10.
  - destruct (auth_user env) as [user|]; cbn.
    2: { split; [eauto|]. split; [discriminate|]. intros d Hin. inv_in Hin. }
    destruct (insert_workout env user (today env) None) as [workout|]; cbn.
    2: { split; [eauto|]. split; [discriminate|]. intros d Hin. inv_in Hin. }
    match goal with |- context [match insert_set env ?d0 with _ => _ end] =>
      destruct (insert_set env d0); cbn end;
      (split; [eauto|]); (split; [discriminate|]);
      intros d Hin; inv_in Hin; subst; exists exercise, z; cbn; auto 10.
Qed.

Lemma add_set_form_sends_valid_reps_witness :
  exists exercise z,
    Some Sample.squats = Some exercise /\
    SetData.exercise_id (SetData.mk "w1" "e3" (JS.Fin 12 0) None 2) = Exercise.id exercise /\
    JS.Fin 12 0 = JS.Fin z 0 /\ 1 <= z <= 999.
Proof.
  destruct (add_set_form_sends_valid_reps Sample.env (state Sample.synced)
              (Some Sample.squats) (AddSetScreen.mkForm (JS.VStr "12") (JS.VStr ""))
              Sample.synced) as (_ & _ & H).
  destruct (H (SetData.mk "w1" "e3" (JS.Fin 12 0) None 2)) as (ex & z & H1 & H2 & H3 & H4 & _).
  - vm_compute. auto.
  - exists ex, z. auto.
Defined.

(** X19. A failed synchronisation is never reported: since [syncData()]
    swallows every error, the Settings screen always shows "Data synced
    successfully" and the pull-to-refresh of the Today screen never shows
    "Failed to sync data", whatever the store and the cache answer. *)
Theorem sync_failures_are_silent (env : Env) (w : World) :
  result (SettingsScreen.handleSyncData env w) = Resolved "Data synced successfully" /\
  result (TodayScreen.onRefresh env w) = Resolved None /\
  trace (SettingsScreen.handleSyncData env w) = trace (DataContext.syncData env w) /\
  trace (TodayScreen.onRefresh env w) = trace (DataContext.syncData env w).
Proof.
  unfold SettingsScreen.handleSyncData, TodayScreen.onRefresh, DataContext.syncData,
    DataContext.loadTodayWorkout.
  run_op. repeat ask_host env; cbn; rewrite ?app_nil_r; auto.
Qed.

(** ** Creating an exercise from the screens *)

(** What [trim_start] leaves has no white space at its head. *)
Lemma trim_start_idempotent (l : list ascii) :
  JS.trim_start (JS.trim_start l) = JS.trim_start l.
Proof.
  assert (H : forall n l, (length l <= n)%nat ->
                          JS.trim_start (JS.trim_start l) = JS.trim_start l).
  { clear l. induction n as [|n IH]; intros [|c1 r1] Hn; cbn in Hn; try reflexivity; [lia|].
    cbn [JS.trim_start].
    destruct (JS.is_white c1) eqn:E1; [apply IH; lia|].
    destruct r1 as [|c2 r2]; [cbn [JS.trim_start]; rewrite E1; reflexivity|].
    destruct (JS.is_white2 c1 c2) eqn:E2; [apply IH; cbn in Hn; lia|].
    destruct r2 as [|c3 r3]; [cbn [JS.trim_start]; rewrite E1, E2; reflexivity|].
    destruct (JS.is_white3 c1 c2 c3) eqn:E3; [apply IH; cbn in Hn; lia|].
    cbn [JS.trim_start]. rewrite E1, E2, E3. reflexivity. }
  apply (H (length l)). lia.
Qed.

Lemma trim_end_nil (l : list ascii) :
  JSString.trim_end l = [] <-> JS.trim_start l = [].
Proof.
  destruct l as [|c r]; [cbn; tauto|].
  cbn [JSString.trim_end].
  destruct (JS.trim_start (c :: r)); [tauto|]. split; discriminate.
Qed.

(** Trimming gives the empty string exactly on the strings made of white
    space only. *)
Lemma trim_empty (s : string) :
  String.eqb (JSString.trim s) "" = JSString.blank s.
Proof.
  unfold JSString.trim, JSString.blank.
  destruct (JS.trim_start (JS.chars s)) as [|c r] eqn:Et; [reflexivity|].
  destruct (JSString.trim_end (c :: r)) as [|c' r'] eqn:Ee; [|reflexivity].
  apply trim_end_nil in Ee. rewrite <- Et, trim_start_idempotent, Et in Ee.
  discriminate.
Qed.

(** X20. The dialog of the Add Set screen that creates an exercise never
    rejects.  With a name made of white space only, the white space of
    [String.prototype.trim], it shows "Exercise name required" and sends
    nothing; otherwise every insertion it sends carries the trimmed name,
    with no category and no notes. *)
Theorem dialog_creates_trimmed_exercise
        (env : Env) (view : State) (newExerciseName : string) (w : World) :
  let r := AddSetDialog.handleCreateExercise env view newExerciseName w in
  (exists shown, result r = Resolved shown) /\
  (JSString.blank newExerciseName = true ->
   r = mkRun [] w (Resolved ("Exercise name required", None))) /\
  (forall user data,
      In (InsertExercise user data) (remote_calls (trace r)) ->
      JSString.blank newExerciseName = false /\
      data = ExerciseData.mk (JSString.trim newExerciseName) None None).
Proof.
  cbv zeta. unfold AddSetDialog.handleCreateExercise. rewrite trim_empty.
  destruct (JSString.blank newExerciseName); cbn.
  - split; [eauto|]. split; [reflexivity|]. intros user data [].
  - unfold DataContext.createExercise. run_op.
    repeat ask_host env; (split; [eauto|]); (split; [discriminate|]);
      intros u data Hin; inv_in Hin; subst; auto.
Qed.

Lemma dialog_creates_trimmed_exercise_witness :
  AddSetDialog.handleCreateExercise Sample.env (state Sample.synced)
    (" " +:+ Scenario.no_break_space) Sample.synced
  = mkRun [] Sample.synced (Resolved ("Exercise name required", None)) /\
  ExerciseData.mk "Lunges" None None =
    ExerciseData.mk
      (JSString.trim (Scenario.no_break_space +:+ "Lunges " +:+ Scenario.no_break_space))
      None None.
Proof.
  split.
  - apply (dialog_creates_trimmed_exercise Sample.env (state Sample.synced)
             (" " +:+ Scenario.no_break_space) Sample.synced).
    reflexivity.
  - apply (proj2 (proj2 (dialog_creates_trimmed_exercise Sample.env (state Sample.synced)
                           (Scenario.no_break_space +:+ "Lunges " +:+ Scenario.no_break_space)
                           Sample.synced)) "u1").
    vm_compute. auto.
Defined.

(** X21. The Create Exercise screen never rejects.  When an exercise of
    the list has the same name up to case, it shows "Exercise with this
    name already exists" and sends nothing.  The comparison is on the name
    as typed while the name sent is the trimmed one: a name made of white
    space only that passes the comparison is sent to the store as the
    empty name. *)
Theorem create_exercise_screen_duplicates
        (env : Env) (view : State) (toLowerCase : string -> string)
        (data : CreateExerciseScreen.FormData) (w : World) :
  let r := CreateExerciseScreen.onSubmit env view toLowerCase data w in
  (exists text, result r = Resolved text) /\
  (forall ex, In ex (exercises view) ->
              toLowerCase (Exercise.name ex) = toLowerCase (CreateExerciseScreen.name data) ->
              r = mkRun [] w (Resolved "Exercise with this name already exists")) /\
  (forall user sent,
      In (InsertExercise user sent) (remote_calls (trace r)) ->
      ExerciseData.name sent = JSString.trim (CreateExerciseScreen.name data)) /\
  (forall user,
      JSString.blank (CreateExerciseScreen.name data) = true ->
      CreateExerciseScreen.existingExercise view toLowerCase data = None ->
      auth_user env = Some user ->
      exists sent, In (InsertExercise user sent) (remote_calls (trace r)) /\
                   ExerciseData.name sent = "").
Proof.
  cbv zeta. unfold CreateExerciseScreen.onSubmit.
  destruct (CreateExerciseScreen.existingExercise view toLowerCase data) as [found|] eqn:Ef.
  - cbn. split; [eauto|]. split; [reflexivity|]. split; [intros u sent []|discriminate].
  - assert (Hnone : forall ex, In ex (exercises view) ->
              toLowerCase (Exercise.name ex) <> toLowerCase (CreateExerciseScreen.name data)).
    { intros ex Hin Heq. unfold CreateExerciseScreen.existingExercise in Ef.
      pose proof (find_none _ _ Ef ex Hin) as Hf. cbn in Hf.
      rewrite Heq, String.eqb_refl in Hf. discriminate. }
    unfold DataContext.createExercise. run_op.
    repeat ask_host env; (split; [eauto|]);
      (split; [intros ex Hin Heq; destruct (Hnone ex Hin Heq)|]);
      (split; [intros u sent Hin; inv_in Hin; subst; reflexivity|]);
      intros u Hb _ Hu; try discriminate; injection Hu as <-;
      (eexists; split; [cbn; right; left; reflexivity|]); cbn;
      pose proof (trim_empty (CreateExerciseScreen.name data)) as Ht;
      rewrite Hb in Ht; apply String.eqb_eq in Ht; exact Ht.
Qed.

Lemma create_exercise_screen_duplicates_witness :
  CreateExerciseScreen.onSubmit Sample.env (state Sample.synced) (fun s => s)
    (CreateExerciseScreen.mkData "Squats" None None) Sample.synced
  = mkRun [] Sample.synced (Resolved "Exercise with this name already exists") /\
  exists sent,
    In (InsertExercise "u1" sent)
       (remote_calls (trace (CreateExerciseScreen.onSubmit Sample.env (state Sample.synced)
                               (fun s => s)
                               (CreateExerciseScreen.mkData (" " +:+ Scenario.no_break_space)
                                                            None None)
                               Sample.synced))) /\
    ExerciseData.name sent = "".
Proof.
  split.
  - apply (proj1 (proj2 (create_exercise_screen_duplicates Sample.env (state Sample.synced)
                           (fun s => s) (CreateExerciseScreen.mkData "Squats" None None)
                           Sample.synced)) Sample.squats).
    + cbn. auto.
    + reflexivity.
  - apply (create_exercise_screen_duplicates Sample.env (state Sample.synced)
             (fun s => s)
             (CreateExerciseScreen.mkData (" " +:+ Scenario.no_break_space) None None)
             Sample.synced);
      reflexivity.
Defined.

(** ** The outcome of the export *)

Lemma all_rows_None (l : list (option string)) :
  DataContext.all_rows l = None <-> In None l.
Proof.
  induction l as [|[r|] l IH]; cbn.
  - split; [discriminate|tauto].
  - destruct (DataContext.all_rows l).
    + split; [discriminate|]. intros [H|H]; [discriminate|]. apply IH in H. discriminate.
    + split; [intros _; right; apply IH; reflexivity|reflexivity].
  - split; [auto|reflexivity].
Qed.

Lemma csv_row_None (workout : WorkoutWithSets.t) (index : nat) (set : SetWithExercise.t) :
  DataContext.csv_row workout index set = None <-> SetWithExercise.exercise set = None.
Proof.
  unfold DataContext.csv_row. destruct (SetWithExercise.exercise set); split; congruence.
Qed.

(** The export has a row that cannot be rendered exactly when a set comes
    without its exercise. *)
Lemma csvRows_None (data : list WorkoutWithSets.t) :
  DataContext.csvRows data = None <->
  exists workout set,
    In workout data /\ In set (WorkoutWithSets.sets workout) /\
    SetWithExercise.exercise set = None.
Proof.
  unfold DataContext.csvRows.
  destruct (DataContext.all_rows _) as [rows|] eqn:Hall.
  - split; [discriminate|]. intros (workout & set & Hw & Hs & He). exfalso.
    assert (In None (concat (map (fun workout =>
                imap (DataContext.csv_row workout) (WorkoutWithSets.sets workout)) data))) as Hn.
    { apply in_concat. eexists. split; [apply in_map; exact Hw|].
      apply list_elem_of_In in Hs. apply list_elem_of_lookup in Hs as [i Hi].
      apply list_elem_of_In. apply list_elem_of_lookup. exists i.
      rewrite list_lookup_imap, Hi. cbn. f_equal. apply csv_row_None. exact He. }
    apply all_rows_None in Hn. congruence.
  - split; [|reflexivity]. intros _.
    apply all_rows_None in Hall. apply in_concat in Hall as (rows & Hrows & Hn).
    apply in_map_iff in Hrows as (workout & <- & Hw).
    apply list_elem_of_In in Hn. apply list_elem_of_lookup in Hn as [i Hi].
    apply list_lookup_imap_Some in Hi as (set & Hset & Hrow).
    exists workout, set. split; [exact Hw|]. split.
    + apply list_elem_of_In. apply list_elem_of_lookup. eauto.
    + apply (csv_row_None workout i). congruence.
Qed.

(** X22. Once the store has answered the export query, [exportData()]
    has sent nothing else and writes no state.  It rejects with a
    TypeError exactly when some set comes without its joined exercise;
    otherwise it resolves to the header line followed by one line per set
    in the data.  With no workout at all (an empty or null listing) the
    text is the header alone, without a line break. *)
Theorem exportData_outcome (env : Env) (w : World) (user : string)
        (listing : option (list WorkoutWithSets.t)) :
  auth_user env = Some user ->
  select_export env user = Ok listing ->
  let data := Supabase.or_empty listing in
  let r := DataContext.exportData env w in
  world r = w /\
  remote_calls (trace r) = [GetUser; SelectExport user] /\
  ((exists error, result r = Rejected error) <->
   exists workout set,
     In workout data /\ In set (WorkoutWithSets.sets workout) /\
     SetWithExercise.exercise set = None) /\
  (forall text,
      result r = Resolved text ->
      exists body,
        text = String.concat newline ("Date,Exercise,Set,Reps,Weight" :: body) /\
        length body = length (concat (map WorkoutWithSets.sets data))) /\
  (data = [] -> result r = Resolved "Date,Exercise,Set,Reps,Weight").
Proof.
  intros Hu Hl. cbv zeta. unfold DataContext.exportData. run_op.
  rewrite Hu. cbn. rewrite Hl. cbn.
  pose proof (csvRows_None (Supabase.or_empty listing)) as Hnone.
  destruct (DataContext.csvRows (Supabase.or_empty listing)) as [rows|] eqn:Hrows; cbn.
  - split; [reflexivity|]. split; [reflexivity|]. split; [|split].
    + rewrite <- Hnone. split; [intros [e He]; discriminate|discriminate].
    + intros text [= <-]. unfold DataContext.csvRows in Hrows.
      destruct (DataContext.all_rows _) as [body|] eqn:Hall; [|discriminate].
      injection Hrows as <-. exists body. split; [reflexivity|].
      apply all_rows_Some in Hall.
      rewrite <- rows_before_length, Hall, length_map. reflexivity.
    + intros Hd. rewrite Hd in Hrows. cbn in Hrows. injection Hrows as <-. reflexivity.
  - split; [reflexivity|]. split; [reflexivity|]. split; [|split].
    + rewrite <- Hnone. split; [reflexivity|eauto].
    + intros text [=].
    + intros Hd. rewrite Hd in Hrows. discriminate.
Qed.

Lemma exportData_outcome_witness :
  result (DataContext.exportData Scenario.empty_account Sample.synced)
  = Resolved "Date,Exercise,Set,Reps,Weight".
Proof.
  apply (exportData_outcome Scenario.empty_account Sample.synced "u1" None eq_refl eq_refl).
  reflexivity.
Defined.

(** ** Sorting on creation, grouping for display *)

Lemma insert_Permutation {A : Type} (cmp : A -> A -> Z) (x : A) (l : list A) :
  JS.insert cmp x l ≡ₚ x :: l.
Proof.
  induction l as [|y l IH]; cbn; [reflexivity|].
  destruct (0 <? cmp x y); [|reflexivity].
  rewrite IH. apply Permutation_swap.
Qed.

Lemma sort_Permutation {A : Type} (cmp : A -> A -> Z) (l : list A) :
  JS.sort cmp l ≡ₚ l.
Proof.
  induction l as [|x l IH]; cbn; [reflexivity|].
  rewrite insert_Permutation, IH. reflexivity.
Qed.

(** X23. [createExercise] sorts the whole list again: when it resolves,
    [exercises] is sorted by name even if the list of the render was not,
    provided the collation is a consistent comparator.  Whatever the
    collation, the new list has exactly the entries of the render and the
    created exercise: nothing is merged or dropped, also when an exercise
    of that name or id is already listed. *)
Theorem createExercise_sorts_and_keeps_all
        (env : Env) (view : State) (w : World) (data : ExerciseData.t)
        (newExercise : Exercise.t) :
  let r := DataContext.createExercise env view data w in
  result r = Resolved newExercise ->
  exercises (state (world r)) ≡ₚ newExercise :: exercises view /\
  length (exercises (state (world r))) = S (length (exercises view)) /\
  (consistent_comparator (localeCompare env) ->
   sorted_by_name env (exercises (state (world r)))).
Proof.
  cbv zeta. unfold DataContext.createExercise. run_op.
  repeat ask_host env; try discriminate. intros [= <-].
  assert (Hp : JS.sort (DataContext.by_name env) (exercises view ++ [exercise])
               ≡ₚ exercise :: exercises view).
  { rewrite sort_Permutation. symmetry. apply Permutation_cons_append. }
  split; [exact Hp|]. split; [rewrite Hp; reflexivity|].
  intros Hcmp. apply (sort_Sorted _ (by_name_consistent env Hcmp)).
Qed.

Lemma createExercise_sorts_and_keeps_all_witness :
  let r := DataContext.createExercise Sample.env
             (mkState [Sample.squats; Sample.push_ups] None [] false false)
             (ExerciseData.mk "Rows" None None) Sample.synced in
  exercises (state (world r)) =
    [Sample.push_ups; Exercise.mk "e-new" "u1" "Rows" None None false; Sample.squats] /\
  length (exercises (state (world r))) = 3%nat.
Proof.
  cbv zeta. split; [reflexivity|].
  apply (createExercise_sorts_and_keeps_all Sample.env
           (mkState [Sample.squats; Sample.push_ups] None [] false false) Sample.synced
           (ExerciseData.mk "Rows" None None)
           (Exercise.mk "e-new" "u1" "Rows" None None false) eq_refl).
Defined.

(** The groups of a list of sets, from the groups of a part of it. *)
Lemma reduce_groups_spec (inherited : list string) (rest done : list SetWithExercise.t)
      (acc : gmap string (list SetWithExercise.t)) :
  (forall name,
      acc !! name =
        match filter (fun s => TodayScreen.exerciseName s = name) done with
        | [] => None
        | l => Some l
        end) ->
  Forall (fun s => TodayScreen.exerciseName s ∉ inherited) done ->
  ((exists groups, TodayScreen.reduce_groups inherited rest acc = Resolved groups) <->
   Forall (fun s => TodayScreen.exerciseName s ∉ inherited) rest) /\
  (forall groups,
      TodayScreen.reduce_groups inherited rest acc = Resolved groups ->
      forall name,
        groups !! name =
          match filter (fun s => TodayScreen.exerciseName s = name) (done ++ rest) with
          | [] => None
          | l => Some l
          end).
Proof.
  revert done acc. induction rest as [|set rest IH]; intros done acc Hacc Hdone.
  - cbn. rewrite app_nil_r. split.
    + split; [constructor|eauto].
    + intros groups [= <-]. exact Hacc.
  - cbn [TodayScreen.reduce_groups]. unfold TodayScreen.push_set.
    set (name0 := TodayScreen.exerciseName set).
    assert (Hstep : forall sets',
               (acc !! name0 = Some sets' \/ (acc !! name0 = None /\ sets' = [])) ->
               forall name,
                 <[name0 := sets' ++ [set]]> acc !! name =
                   match filter (fun s => TodayScreen.exerciseName s = name) (done ++ [set]) with
                   | [] => None
                   | l => Some l
                   end).
    { intros sets' Hs name. rewrite filter_app.
      destruct (decide (name0 = name)) as [<-|Hne].
      - rewrite lookup_insert_eq.
        rewrite (filter_cons_True _ set []) by reflexivity. rewrite filter_nil.
        specialize (Hacc name0). destruct Hs as [Hs|[Hs ->]]; rewrite Hs in Hacc.
        + destruct (filter _ done) as [|x l]; [discriminate|].
          injection Hacc as ->. reflexivity.
        + destruct (filter _ done) as [|x l]; [reflexivity|discriminate].
      - rewrite lookup_insert_ne by exact Hne.
        rewrite (filter_cons_False _ set []) by exact Hne. rewrite filter_nil, app_nil_r.
        apply Hacc. }
    replace (done ++ set :: rest) with ((done ++ [set]) ++ rest)
      by (rewrite <- app_assoc; reflexivity).
    destruct (acc !! name0) as [sets'|] eqn:Ea.
    + assert (Hkey : name0 ∉ inherited).
      { specialize (Hacc name0). rewrite Ea in Hacc.
        destruct (filter _ done) as [|x l] eqn:Ef; [discriminate|].
        assert (x ∈ filter (fun s => TodayScreen.exerciseName s = name0) done) as Hx
          by (rewrite Ef; left).
        apply list_elem_of_filter in Hx as [Hn Hx]. rewrite <- Hn.
        rewrite Forall_forall in Hdone. apply Hdone. exact Hx. }
      destruct (IH (done ++ [set]) (<[name0 := sets' ++ [set]]> acc)
                   (Hstep sets' (or_introl eq_refl))) as [Hiff Hres].
      { apply Forall_app. split; [exact Hdone|]. constructor; [exact Hkey|constructor]. }
      split; [|exact Hres]. rewrite Hiff. split.
      * intros H. constructor; assumption.
      * intros H. apply Forall_cons in H as [_ H]. exact H.
    + destruct (bool_decide (name0 ∈ inherited)) eqn:Ek.
      * apply bool_decide_eq_true in Ek. split.
        -- split; [intros [g Hg]; discriminate|].
           intros H. apply Forall_cons in H as [H _]. contradiction.
        -- intros groups [=].
      * apply bool_decide_eq_false in Ek.
        destruct (IH (done ++ [set]) (<[name0 := [set]]> acc)
                     (Hstep [] (or_intror (conj eq_refl eq_refl)))) as [Hiff Hres].
        { apply Forall_app. split; [exact Hdone|]. constructor; [exact Ek|constructor]. }
        split; [|exact Hres]. rewrite Hiff. split.
        -- intros H. constructor; assumption.
        -- intros H. apply Forall_cons in H as [_ H]. exact H.
Qed.

(** X24. The grouping of the sets by exercise, for the Today and History
    screens, succeeds exactly when no set has for name a property every
    object inherits ("constructor", "toString", ...), and throws a
    TypeError otherwise.  When it succeeds, the group of a name holds
    exactly the sets of that name, in their order in the list, and a name
    that no set has is no key: no set is lost, duplicated or moved to
    another group. *)
Theorem groupSetsByExercise_groups (inherited : list string)
        (sets : list SetWithExercise.t) :
  ((exists groups, TodayScreen.groupSetsByExercise inherited sets = Resolved groups) <->
   Forall (fun s => TodayScreen.exerciseName s ∉ inherited) sets) /\
  (forall groups,
      TodayScreen.groupSetsByExercise inherited sets = Resolved groups ->
      forall name,
        groups !! name =
          match filter (fun s => TodayScreen.exerciseName s = name) sets with
          | [] => None
          | l => Some l
          end).
Proof.
  unfold TodayScreen.groupSetsByExercise.
  apply (reduce_groups_spec inherited sets [] ∅); [|constructor].
  intros name. rewrite lookup_empty. reflexivity.
Qed.

Lemma groupSetsByExercise_groups_witness :
  exists groups,
    TodayScreen.groupSetsByExercise TodayScreen.object_prototype_keys
      [Sample.push_ups_10; Sample.squats_5; Sample.push_ups_8]
    = Resolved groups /\
    groups !! "Push-ups" = Some [Sample.push_ups_10; Sample.push_ups_8] /\
    groups !! "Deadlifts" = None.
Proof.
  destruct (groupSetsByExercise_groups TodayScreen.object_prototype_keys
              [Sample.push_ups_10; Sample.squats_5; Sample.push_ups_8]) as [Hiff Hres].
  destruct (proj2 Hiff) as [groups Hg].
  - apply (bool_decide_unpack _). vm_compute. exact I.
  - exists groups. split; [exact Hg|].
    split; [exact (Hres groups Hg "Push-ups")|exact (Hres groups Hg "Deadlifts")].
Defined.

(** ** The statistics follow the sets *)

(** X25. The statistics of the day follow a resolved [addSet]: with reps
    an integer [z] in 1..999 and a store that answers an insert with the
    inserted row, [totalSets] grows by one, [totalReps] by [z], and
    [exerciseCount] by one exactly when the exercise had no set today. *)
Theorem stats_after_addSet
        (env : Env) (w : World) (exerciseId : string) (z : Z) (weight : JS.value)
        (newSet : Set_.t) (before after : DataContext.Stats) :
  store_returns_inserted_set env ->
  1 <= z <= 999 ->
  let r := DataContext.addSet env (state w) exerciseId (JS.VNum (JS.Fin z 0)) weight w in
  result r = Resolved newSet ->
  result (DataContext.getTodayStats (state w) w) = Resolved before ->
  result (DataContext.getTodayStats (state (world r)) (world r)) = Resolved after ->
  DataContext.totalSets after = S (DataContext.totalSets before) /\
  DataContext.totalReps after = DataContext.totalReps before + z /\
  DataContext.exerciseCount after =
    if decide (exerciseId ∈ map SetWithExercise.exercise_id (todaySets (state w)))
    then DataContext.exerciseCount before
    else S (DataContext.exerciseCount before).
Proof.
  intros Hstore Hz. cbv zeta. intros Hr.
  destruct (addSet_resolved _ _ _ _ _ _ _ Hr) as (Hadd & d & Hd & _ & He & Hreps).
  destruct (Hstore _ _ Hd) as (_ & Hid & Hrow & _ & _).
  rewrite (parseInt_small_integer z Hz) in Hreps. rewrite Hreps in Hrow.
  injection Hrow as Hrow. rewrite He in Hid.
  unfold DataContext.getTodayStats, ret. cbn [result]. rewrite Hadd.
  intros [= <-] [= <-]. cbn [DataContext.totalSets DataContext.totalReps
                              DataContext.exerciseCount].
  split; [rewrite length_app; cbn; lia|]. split.
  - rewrite fold_left_app. cbn [fold_left]. unfold SetWithExercise.reps at 2.
    cbn [SetWithExercise.set]. rewrite Hrow. reflexivity.
  - rewrite map_app. cbn [map]. unfold SetWithExercise.exercise_id at 2. cbn. rewrite Hid.
    rewrite list_to_set_app_L. cbn [list_to_set]. rewrite union_empty_r_L.
    destruct (decide (exerciseId ∈ map SetWithExercise.exercise_id (todaySets (state w))))
      as [Hin|Hnin].
    + f_equal. apply (elem_of_list_to_set (C := gset string)) in Hin.
      apply set_eq. intros y. rewrite elem_of_union, elem_of_singleton.
      split; [intros [H| ->]; assumption|auto].
    + rewrite size_union.
      * rewrite size_singleton. lia.
      * rewrite <- (elem_of_list_to_set (C := gset string)) in Hnin.
        apply disjoint_singleton_r. exact Hnin.
Qed.

Lemma stats_after_addSet_witness :
  let r := DataContext.addSet Sample.env (state Sample.synced) "e3"
             (JS.VNum (JS.Fin 7 0)) JS.VNull Sample.synced in
  DataContext.totalSets (DataContext.mkStats 3 2 22) = 3%nat /\
  DataContext.totalReps (DataContext.mkStats 3 2 22) = 15 + 7 /\
  result (DataContext.getTodayStats (state (world r)) (world r))
  = Resolved (DataContext.mkStats 3 2 22).
Proof.
  cbv zeta.
  assert (Hz : 1 <= 7 <= 999) by lia.
  destruct (stats_after_addSet Sample.env Sample.synced "e3" 7 JS.VNull
              (Set_.mk "s-new" "w1" "e3" 7 None 2)
              (DataContext.mkStats 2 2 15) (DataContext.mkStats 3 2 22)
              sample_store_returns_inserted_set Hz eq_refl eq_refl eq_refl) as (Hs & Ht & _).
  split; [exact Hs|]. split; [exact Ht|reflexivity].
Defined.
